(** * cc-env: the "display settings" command of the runtime

    A shallow embedding of [cc-env.go].  The command reads the stored
    application metadata, asks the host and the filesystem a fixed series of
    questions, assembles the answers into one [EnvInfo] record and prints it.

    Everything the file calls but does not define (symlink resolution, the
    host probes, the hypervisor details helper, the TOML encoder, the write
    to the output file, the build constants) is gathered in a [World] record.
    Go functions returning [(T, error)] return a pair here as well, so that
    the value returned next to a non-nil error can be inspected.  Every
    function that reaches outside the process runs in a small writer monad
    that records which outside calls were made, in which order. *)

From stdpp Require Import gmap strings.

Open Scope string_scope.

(** ** Errors and zero values *)

(** A non-nil Go [error] value.  [errors_New] is what this file itself
    creates; [os_PathError] is what the filesystem reports. *)
Inductive errorValue : Type :=
| errors_New (text : string)
| os_PathError (Op Path Err : string).

(** The Go [error] interface: [None] is [nil]. *)
Definition error : Type := option errorValue.

(** The zero value of a Go type, as in [T{}]. *)
Class Zero (T : Type) : Type := zero : T.

#[export] Instance string_Zero : Zero string := "".
#[export] Instance bool_Zero : Zero bool := false.

(** ** The configuration types read from virtcontainers

    Only the fields that [cc-env.go] reads are kept. *)

Record vc_HypervisorConfig : Type := {
  HypervisorConfig_KernelPath : string;
  HypervisorConfig_ImagePath : string;
  HypervisorConfig_HypervisorPath : string
}.

Record vc_CCProxyConfig : Type := { CCProxyConfig_URL : string }.

Record vc_CCShimConfig : Type := { CCShimConfig_Path : string }.

Record vc_HyperConfig : Type := { HyperConfig_PauseBinPath : string }.

#[export] Instance vc_HypervisorConfig_Zero : Zero vc_HypervisorConfig :=
  {| HypervisorConfig_KernelPath := zero;
     HypervisorConfig_ImagePath := zero;
     HypervisorConfig_HypervisorPath := zero |}.
#[export] Instance vc_CCProxyConfig_Zero : Zero vc_CCProxyConfig :=
  {| CCProxyConfig_URL := zero |}.
#[export] Instance vc_CCShimConfig_Zero : Zero vc_CCShimConfig :=
  {| CCShimConfig_Path := zero |}.
#[export] Instance vc_HyperConfig_Zero : Zero vc_HyperConfig :=
  {| HyperConfig_PauseBinPath := zero |}.

(** [oci.RuntimeConfig], with the type of its three [interface{}] fields
    left open until the dynamic values are defined. *)
Record RuntimeConfigOf (iface : Type) : Type := {
  RuntimeConfig_HypervisorConfig : vc_HypervisorConfig;
  RuntimeConfig_AgentType : string;
  RuntimeConfig_AgentConfig : iface;
  RuntimeConfig_ProxyType : string;
  RuntimeConfig_ProxyConfig : iface;
  RuntimeConfig_ShimType : string;
  RuntimeConfig_ShimConfig : iface
}.

Arguments RuntimeConfig_HypervisorConfig {iface} _.
Arguments RuntimeConfig_AgentType {iface} _.
Arguments RuntimeConfig_AgentConfig {iface} _.
Arguments RuntimeConfig_ProxyType {iface} _.
Arguments RuntimeConfig_ProxyConfig {iface} _.
Arguments RuntimeConfig_ShimType {iface} _.
Arguments RuntimeConfig_ShimConfig {iface} _.

#[local] Set Warnings "-register-all".

(** A value of type [interface{}]: nil, or a value tagged with its dynamic
    type.  [any_other] stands for a value of any dynamic type other than
    the five named here, which the file never asks for (a pointer to one of
    the configuration structs, for instance); [dynamicType] only names it. *)
Inductive any : Type :=
| any_nil
| any_string (s : string)
| any_CCProxyConfig (c : vc_CCProxyConfig)
| any_CCShimConfig (c : vc_CCShimConfig)
| any_HyperConfig (c : vc_HyperConfig)
| any_RuntimeConfig (c : RuntimeConfigOf any)
| any_other (dynamicType : string).

Definition oci_RuntimeConfig : Type := RuntimeConfigOf any.

#[export] Instance oci_RuntimeConfig_Zero : Zero oci_RuntimeConfig :=
  {| RuntimeConfig_HypervisorConfig := zero;
     RuntimeConfig_AgentType := zero;
     RuntimeConfig_AgentConfig := any_nil;
     RuntimeConfig_ProxyType := zero;
     RuntimeConfig_ProxyConfig := any_nil;
     RuntimeConfig_ShimType := zero;
     RuntimeConfig_ShimConfig := any_nil |}.

(** The two-result type assertions [v.(T)]: the asserted value, or the zero
    value of [T], and whether the dynamic type was [T]. *)
Definition assert_string (v : any) : string * bool :=
  match v with any_string s => (s, true) | _ => (zero, false) end.

Definition assert_RuntimeConfig (v : any) : oci_RuntimeConfig * bool :=
  match v with any_RuntimeConfig c => (c, true) | _ => (zero, false) end.

Definition assert_CCProxyConfig (v : any) : vc_CCProxyConfig * bool :=
  match v with any_CCProxyConfig c => (c, true) | _ => (zero, false) end.

Definition assert_CCShimConfig (v : any) : vc_CCShimConfig * bool :=
  match v with any_CCShimConfig c => (c, true) | _ => (zero, false) end.

Definition assert_HyperConfig (v : any) : vc_HyperConfig * bool :=
  match v with any_HyperConfig c => (c, true) | _ => (zero, false) end.

(** Indexing a [map[string]interface{}]: a missing key reads as nil. *)
Definition index (m : gmap string any) (key : string) : any :=
  match m !! key with Some v => v | None => any_nil end.

(** [cli.Context], reduced to the application metadata. *)
Record cli_App : Type := { App_Metadata : gmap string any }.
Record cli_Context : Type := { Context_App : cli_App }.

(** ** The records of the output *)

Definition formatVersion : string := "1.0.0".

Record MetaInfo : Type := { MetaInfo_Version : string }.

Record PathInfo : Type := {
  PathInfo_Path : string;
  PathInfo_Resolved : string
}.

Record CPUInfo : Type := {
  CPUInfo_Vendor : string;
  CPUInfo_Model : string
}.

Record RuntimeConfigInfo : Type := {
  RuntimeConfigInfo_Location : PathInfo;
  RuntimeConfigInfo_GlobalLogPath : string
}.

Record RuntimeVersionInfo : Type := {
  RuntimeVersionInfo_Semver : string;
  RuntimeVersionInfo_Commit : string;
  RuntimeVersionInfo_OCI : string
}.

Record RuntimeInfo : Type := {
  RuntimeInfo_Version : RuntimeVersionInfo;
  RuntimeInfo_Config : RuntimeConfigInfo
}.

Record ProxyInfo : Type := {
  ProxyInfo_Type : string;
  ProxyInfo_Version : string;
  ProxyInfo_URL : string
}.

Record ShimInfo : Type := {
  ShimInfo_Type : string;
  ShimInfo_Version : string;
  ShimInfo_Location : PathInfo
}.

Record AgentInfo : Type := {
  AgentInfo_Type : string;
  AgentInfo_Version : string;
  AgentInfo_PauseBin : PathInfo
}.

Record DistroInfo : Type := {
  DistroInfo_Name : string;
  DistroInfo_Version : string
}.

Record HostInfo : Type := {
  HostInfo_Kernel : string;
  HostInfo_Distro : DistroInfo;
  HostInfo_CPU : CPUInfo;
  HostInfo_CCCapable : bool
}.

Record EnvInfo : Type := {
  EnvInfo_Meta : MetaInfo;
  EnvInfo_Runtime : RuntimeInfo;
  EnvInfo_Hypervisor : PathInfo;
  EnvInfo_Image : PathInfo;
  EnvInfo_Kernel : PathInfo;
  EnvInfo_Proxy : ProxyInfo;
  EnvInfo_Shim : ShimInfo;
  EnvInfo_Agent : AgentInfo;
  EnvInfo_Host : HostInfo
}.

#[export] Instance MetaInfo_Zero : Zero MetaInfo :=
  {| MetaInfo_Version := zero |}.
#[export] Instance PathInfo_Zero : Zero PathInfo :=
  {| PathInfo_Path := zero; PathInfo_Resolved := zero |}.
#[export] Instance CPUInfo_Zero : Zero CPUInfo :=
  {| CPUInfo_Vendor := zero; CPUInfo_Model := zero |}.
#[export] Instance RuntimeConfigInfo_Zero : Zero RuntimeConfigInfo :=
  {| RuntimeConfigInfo_Location := zero;
     RuntimeConfigInfo_GlobalLogPath := zero |}.
#[export] Instance RuntimeVersionInfo_Zero : Zero RuntimeVersionInfo :=
  {| RuntimeVersionInfo_Semver := zero;
     RuntimeVersionInfo_Commit := zero;
     RuntimeVersionInfo_OCI := zero |}.
#[export] Instance RuntimeInfo_Zero : Zero RuntimeInfo :=
  {| RuntimeInfo_Version := zero; RuntimeInfo_Config := zero |}.
#[export] Instance ProxyInfo_Zero : Zero ProxyInfo :=
  {| ProxyInfo_Type := zero; ProxyInfo_Version := zero;
     ProxyInfo_URL := zero |}.
#[export] Instance ShimInfo_Zero : Zero ShimInfo :=
  {| ShimInfo_Type := zero; ShimInfo_Version := zero;
     ShimInfo_Location := zero |}.
#[export] Instance AgentInfo_Zero : Zero AgentInfo :=
  {| AgentInfo_Type := zero; AgentInfo_Version := zero;
     AgentInfo_PauseBin := zero |}.
#[export] Instance DistroInfo_Zero : Zero DistroInfo :=
  {| DistroInfo_Name := zero; DistroInfo_Version := zero |}.
#[export] Instance HostInfo_Zero : Zero HostInfo :=
  {| HostInfo_Kernel := zero; HostInfo_Distro := zero;
     HostInfo_CPU := zero; HostInfo_CCCapable := zero |}.
#[export] Instance EnvInfo_Zero : Zero EnvInfo :=
  {| EnvInfo_Meta := zero; EnvInfo_Runtime := zero;
     EnvInfo_Hypervisor := zero; EnvInfo_Image := zero;
     EnvInfo_Kernel := zero; EnvInfo_Proxy := zero; EnvInfo_Shim := zero;
     EnvInfo_Agent := zero; EnvInfo_Host := zero |}.

(** ** The world outside the file

    [os.File] values the command can write to. *)
Inductive os_File : Type := os_Stdout | os_Stderr.

(** What the functions and constants used but not defined in [cc-env.go]
    answer.  The command is a point-in-time snapshot, so the answers do not
    change while it runs. *)
Record World : Type := {
  (* build constants of the runtime *)
  version : string;
  commit : string;
  specs_Version : string;
  unknown : string;
  procCPUInfo : string;
  (* the filesystem and the host *)
  on_EvalSymlinks : string -> string * error;
  on_getKernelVersion : string * error;
  on_getDistroDetails : string * string * error;
  on_getCPUDetails : string * string * error;
  on_hostIsClearContainersCapable : string -> error;
  on_getHypervisorDetails : oci_RuntimeConfig -> vc_HypervisorConfig * error;
  (* the TOML encoder and the write to a file *)
  on_Encode : EnvInfo -> string * error;
  on_Fprintf : os_File -> string -> error
}.

(** One call that leaves the file. *)
Inductive call : Type :=
| EvalSymlinks (path : string)
| GetKernelVersion
| GetDistroDetails
| GetCPUDetails
| HostIsClearContainersCapable (cpuinfo : string)
| GetHypervisorDetails (config : oci_RuntimeConfig)
| Encode (v : EnvInfo)
| Fprintf (file : os_File) (text : string).

(** A computation that returns an [A] and the calls it made, oldest first. *)
Definition M (A : Type) : Type := A * list call.

Definition ret {A : Type} (a : A) : M A := (a, []).

Definition bind {A B : Type} (m : M A) (k : A -> M B) : M B :=
  let (a, made) := m in
  let (b, made') := k a in
  (b, (made ++ made')%list).

Definition outside {A : Type} (c : call) (answer : A) : M A := (answer, [c]).

Definition result {A : Type} (m : M A) : A := fst m.
Definition calls {A : Type} (m : M A) : list call := snd m.

Notation "'let*' x ':=' m 'in' k" := (bind m (fun x => k))
  (at level 10, x name, m at level 100, k at level 200).
Notation "'let*' ' p ':=' m 'in' k" := (bind m (fun x => match x with p => k end))
  (at level 10, p pattern, m at level 100, k at level 200).

(** What was written to [file], in order. *)
Fixpoint written (file : os_File) (made : list call) : list string :=
  match made with
  | [] => []
  | Fprintf f text :: rest =>
      match f, file with
      | os_Stdout, os_Stdout | os_Stderr, os_Stderr => text :: written file rest
      | _, _ => written file rest
      end
  | _ :: rest => written file rest
  end.

Definition filepath_EvalSymlinks (w : World) (path : string) : M (string * error) :=
  outside (EvalSymlinks path) (on_EvalSymlinks w path).

Definition getKernelVersion (w : World) : M (string * error) :=
  outside GetKernelVersion (on_getKernelVersion w).

Definition getDistroDetails (w : World) : M (string * string * error) :=
  outside GetDistroDetails (on_getDistroDetails w).

Definition getCPUDetails (w : World) : M (string * string * error) :=
  outside GetCPUDetails (on_getCPUDetails w).

Definition hostIsClearContainersCapable (w : World) (cpuinfo : string) : M error :=
  outside (HostIsClearContainersCapable cpuinfo)
          (on_hostIsClearContainersCapable w cpuinfo).

Definition getHypervisorDetails (w : World) (config : oci_RuntimeConfig)
  : M (vc_HypervisorConfig * error) :=
  outside (GetHypervisorDetails config) (on_getHypervisorDetails w config).

Definition encoder_Encode (w : World) (v : EnvInfo) : M (string * error) :=
  outside (Encode v) (on_Encode w v).

Definition fmt_Fprintf (w : World) (file : os_File) (text : string) : M error :=
  outside (Fprintf file text) (on_Fprintf w file text).

(** ** The functions of cc-env.go *)

Definition getMetaInfo : MetaInfo :=
  {| MetaInfo_Version := formatVersion |}.

Definition getRuntimeInfo (w : World) (configFile logFile : string)
    (config : oci_RuntimeConfig) : M (RuntimeInfo * error) :=
  let* '(configFileResolved, err) := filepath_EvalSymlinks w configFile in
  match err with
  | Some _ => ret (zero, err)
  | None =>
      let runtimeVersion :=
        {| RuntimeVersionInfo_Semver := version w;
           RuntimeVersionInfo_Commit := commit w;
           RuntimeVersionInfo_OCI := specs_Version w |} in
      let runtimeConfig :=
        {| RuntimeConfigInfo_GlobalLogPath := logFile;
           RuntimeConfigInfo_Location :=
             {| PathInfo_Path := configFile;
                PathInfo_Resolved := configFileResolved |} |} in
      let ccRuntime :=
        {| RuntimeInfo_Version := runtimeVersion;
           RuntimeInfo_Config := runtimeConfig |} in
      ret (ccRuntime, None)
  end.

Definition getHostInfo (w : World) : M (HostInfo * error) :=
  let* '(hostKernelVersion, err) := getKernelVersion w in
  match err with
  | Some _ => ret (zero, err)
  | None =>
  let* '(hostDistroName, hostDistroVersion, err) := getDistroDetails w in
  match err with
  | Some _ => ret (zero, err)
  | None =>
  let* '(cpuVendor, cpuModel, err) := getCPUDetails w in
  match err with
  | Some _ => ret (zero, err)
  | None =>
      let hostCCCapable := true in
      let* err := hostIsClearContainersCapable w (procCPUInfo w) in
      let hostCCCapable :=
        match err with Some _ => false | None => hostCCCapable end in
      let hostDistro :=
        {| DistroInfo_Name := hostDistroName;
           DistroInfo_Version := hostDistroVersion |} in
      let hostCPU :=
        {| CPUInfo_Vendor := cpuVendor; CPUInfo_Model := cpuModel |} in
      let ccHost :=
        {| HostInfo_Kernel := hostKernelVersion;
           HostInfo_Distro := hostDistro;
           HostInfo_CPU := hostCPU;
           HostInfo_CCCapable := hostCCCapable |} in
      ret (ccHost, None)
  end end end.

Definition getProxyInfo (w : World) (config : oci_RuntimeConfig)
  : ProxyInfo * error :=
  let '(proxyConfig, ok) := assert_CCProxyConfig (RuntimeConfig_ProxyConfig config) in
  if negb ok then (zero, Some (errors_New "cannot determine proxy config")) else
  let proxyURL := CCProxyConfig_URL proxyConfig in
  let ccProxy :=
    {| ProxyInfo_Type := RuntimeConfig_ProxyType config;
       ProxyInfo_Version := unknown w;
       ProxyInfo_URL := proxyURL |} in
  (ccProxy, None).

Definition getShimInfo (w : World) (config : oci_RuntimeConfig)
  : M (ShimInfo * error) :=
  let '(shimConfig, ok) := assert_CCShimConfig (RuntimeConfig_ShimConfig config) in
  if negb ok then ret (zero, Some (errors_New "cannot determine shim config")) else
  let shimPath := CCShimConfig_Path shimConfig in
  let* '(shimPathResolved, err) := filepath_EvalSymlinks w shimPath in
  match err with
  | Some _ => ret (zero, err)
  | None =>
      let ccShim :=
        {| ShimInfo_Type := RuntimeConfig_ShimType config;
           ShimInfo_Version := unknown w;
           ShimInfo_Location :=
             {| PathInfo_Path := shimPath;
                PathInfo_Resolved := shimPathResolved |} |} in
      ret (ccShim, None)
  end.

Definition getAgentInfo (w : World) (config : oci_RuntimeConfig)
  : M (AgentInfo * error) :=
  let '(agentConfig, ok) := assert_HyperConfig (RuntimeConfig_AgentConfig config) in
  if negb ok then ret (zero, Some (errors_New "cannot determine agent config")) else
  let agentBinPath := HyperConfig_PauseBinPath agentConfig in
  let* '(agentBinPathResolved, err) := filepath_EvalSymlinks w agentBinPath in
  match err with
  | Some _ => ret (zero, err)
  | None =>
      let ccAgent :=
        {| AgentInfo_Type := RuntimeConfig_AgentType config;
           AgentInfo_Version := unknown w;
           AgentInfo_PauseBin :=
             {| PathInfo_Path := agentBinPath;
                PathInfo_Resolved := agentBinPathResolved |} |} in
      ret (ccAgent, None)
  end.

Definition getEnvInfo (w : World) (configFile logfilePath : string)
    (config : oci_RuntimeConfig) : M (EnvInfo * error) :=
  let meta := getMetaInfo in
  let* '(ccRuntime, err) := getRuntimeInfo w configFile logfilePath config in
  match err with
  | Some _ => ret (zero, err)
  | None =>
  let* '(resolvedHypervisor, err) := getHypervisorDetails w config in
  match err with
  | Some _ => ret (zero, err)
  | None =>
  let* '(ccHost, err) := getHostInfo w in
  match err with
  | Some _ => ret (zero, err)
  | None =>
  let '(ccProxy, err) := getProxyInfo w config in
  match err with
  | Some _ => ret (zero, err)
  | None =>
  let* '(ccShim, err) := getShimInfo w config in
  match err with
  | Some _ => ret (zero, err)
  | None =>
  let* '(ccAgent, err) := getAgentInfo w config in
  match err with
  | Some _ => ret (zero, err)
  | None =>
      let hypervisor :=
        {| PathInfo_Path :=
             HypervisorConfig_HypervisorPath (RuntimeConfig_HypervisorConfig config);
           PathInfo_Resolved := HypervisorConfig_HypervisorPath resolvedHypervisor |} in
      let image :=
        {| PathInfo_Path :=
             HypervisorConfig_ImagePath (RuntimeConfig_HypervisorConfig config);
           PathInfo_Resolved := HypervisorConfig_ImagePath resolvedHypervisor |} in
      let kernel :=
        {| PathInfo_Path :=
             HypervisorConfig_KernelPath (RuntimeConfig_HypervisorConfig config);
           PathInfo_Resolved := HypervisorConfig_KernelPath resolvedHypervisor |} in
      let env :=
        {| EnvInfo_Meta := meta;
           EnvInfo_Runtime := ccRuntime;
           EnvInfo_Hypervisor := hypervisor;
           EnvInfo_Image := image;
           EnvInfo_Kernel := kernel;
           EnvInfo_Proxy := ccProxy;
           EnvInfo_Shim := ccShim;
           EnvInfo_Agent := ccAgent;
           EnvInfo_Host := ccHost |} in
      ret (env, None)
  end end end end end end.

Definition showSettings (w : World) (ccEnv : EnvInfo) (file : os_File) : M error :=
  let* '(buf, err) := encoder_Encode w ccEnv in
  match err with
  | Some _ => ret err
  | None =>
      let* err := fmt_Fprintf w file buf in
      ret err
  end.

Definition handleSettings (w : World) (context : cli_Context) : M error :=
  let metadata := App_Metadata (Context_App context) in
  let '(configFile, ok) := assert_string (index metadata "configFile") in
  if negb ok then ret (Some (errors_New "cannot determine config file")) else
  let '(runtimeConfig, ok) := assert_RuntimeConfig (index metadata "runtimeConfig") in
  if negb ok then ret (Some (errors_New "cannot determine runtime config")) else
  let '(logfilePath, ok) := assert_string (index metadata "logfilePath") in
  if negb ok then ret (Some (errors_New "cannot determine logfile config")) else
  let* '(ccEnv, err) := getEnvInfo w configFile logfilePath runtimeConfig in
  match err with
  | Some _ => ret err
  | None => showSettings w ccEnv os_Stdout
  end.

(** ** Vocabulary of the properties *)

(** [e == nil]. *)
Definition is_nil (e : error) : bool :=
  match e with None => true | Some _ => false end.

(** The value and the error of a Go-style result. *)
Definition val {A : Type} (m : M (A * error)) : A := fst (result m).
Definition err {A : Type} (m : M (A * error)) : error := snd (result m).

(** The error of the first step that fails, in a list of step outcomes. *)
Fixpoint first_error (steps : list error) : error :=
  match steps with
  | [] => None
  | Some e :: _ => Some e
  | None :: rest => first_error rest
  end.

(** The outcome of narrowing an [interface{}] field: nil when the assertion
    held, the error naming the subsystem otherwise. *)
Definition narrowing (ok : bool) (subsystem : string) : error :=
  if ok then None
  else Some (errors_New ("cannot determine " +:+ subsystem +:+ " config")).

Definition shimPath_of (config : oci_RuntimeConfig) : string :=
  CCShimConfig_Path (fst (assert_CCShimConfig (RuntimeConfig_ShimConfig config))).

Definition agentBinPath_of (config : oci_RuntimeConfig) : string :=
  HyperConfig_PauseBinPath (fst (assert_HyperConfig (RuntimeConfig_AgentConfig config))).

(** The outcomes of the fallible steps, in the order [getEnvInfo] takes
    them. *)
Definition code_order (w : World) (configFile : string) (config : oci_RuntimeConfig)
  : list error :=
  [ snd (on_EvalSymlinks w configFile);
    snd (on_getHypervisorDetails w config);
    snd (on_getKernelVersion w);
    snd (on_getDistroDetails w);
    snd (on_getCPUDetails w);
    narrowing (snd (assert_CCProxyConfig (RuntimeConfig_ProxyConfig config))) "proxy";
    narrowing (snd (assert_CCShimConfig (RuntimeConfig_ShimConfig config))) "shim";
    snd (on_EvalSymlinks w (shimPath_of config));
    narrowing (snd (assert_HyperConfig (RuntimeConfig_AgentConfig config))) "agent";
    snd (on_EvalSymlinks w (agentBinPath_of config)) ].

(** The same outcomes in the order of the numbered steps of the
    specification, which reads the hypervisor, image and kernel paths last. *)
Definition listed_order (w : World) (configFile : string) (config : oci_RuntimeConfig)
  : list error :=
  [ snd (on_EvalSymlinks w configFile);
    snd (on_getKernelVersion w);
    snd (on_getDistroDetails w);
    snd (on_getCPUDetails w);
    narrowing (snd (assert_CCProxyConfig (RuntimeConfig_ProxyConfig config))) "proxy";
    narrowing (snd (assert_CCShimConfig (RuntimeConfig_ShimConfig config))) "shim";
    snd (on_EvalSymlinks w (shimPath_of config));
    narrowing (snd (assert_HyperConfig (RuntimeConfig_AgentConfig config))) "agent";
    snd (on_EvalSymlinks w (agentBinPath_of config));
    snd (on_getHypervisorDetails w config) ].

(** The outside calls of a run of [getEnvInfo] in which no step fails. *)
Definition all_calls (w : World) (configFile : string) (config : oci_RuntimeConfig)
  : list call :=
  [ EvalSymlinks configFile;
    GetHypervisorDetails config;
    GetKernelVersion;
    GetDistroDetails;
    GetCPUDetails;
    HostIsClearContainersCapable (procCPUInfo w);
    EvalSymlinks (shimPath_of config);
    EvalSymlinks (agentBinPath_of config) ].

(** The calls that produce or emit the document. *)
Definition renders (c : call) : bool :=
  match c with
  | Encode _ | Fprintf _ _ => true
  | _ => false
  end.

Definition nothing_rendered (made : list call) : Prop :=
  forallb (fun c => negb (renders c)) made = true.

(** Narrowing predicates on a runtime configuration. *)
Definition proxy_narrows (config : oci_RuntimeConfig) : bool :=
  snd (assert_CCProxyConfig (RuntimeConfig_ProxyConfig config)).
Definition shim_narrows (config : oci_RuntimeConfig) : bool :=
  snd (assert_CCShimConfig (RuntimeConfig_ShimConfig config)).
Definition agent_narrows (config : oci_RuntimeConfig) : bool :=
  snd (assert_HyperConfig (RuntimeConfig_AgentConfig config)).

(** A path resolves in a world. *)
Definition resolvable (w : World) (path : string) : Prop :=
  snd (on_EvalSymlinks w path) = None.

(** The invariant of [PathInfo]: the world resolves [Path] to [Resolved]. *)
Definition resolved_in (w : World) (p : PathInfo) : Prop :=
  on_EvalSymlinks w (PathInfo_Path p) = (PathInfo_Resolved p, None).

(** Every [PathInfo] of an [EnvInfo]. *)
Definition pathInfos (env : EnvInfo) : list PathInfo :=
  [ RuntimeConfigInfo_Location (RuntimeInfo_Config (EnvInfo_Runtime env));
    EnvInfo_Hypervisor env;
    EnvInfo_Image env;
    EnvInfo_Kernel env;
    ShimInfo_Location (EnvInfo_Shim env);
    AgentInfo_PauseBin (EnvInfo_Agent env) ].

(** The paths those are built from. *)
Definition configured_paths (configFile : string) (config : oci_RuntimeConfig)
  : list string :=
  [ configFile;
    HypervisorConfig_HypervisorPath (RuntimeConfig_HypervisorConfig config);
    HypervisorConfig_ImagePath (RuntimeConfig_HypervisorConfig config);
    HypervisorConfig_KernelPath (RuntimeConfig_HypervisorConfig config);
    shimPath_of config;
    agentBinPath_of config ].

(** A valid runtime configuration with resolvable paths: the three
    subsystem sections have their concrete types, and the configuration
    file, the shim and pause binaries and the hypervisor details resolve. *)
Definition valid_with_resolvable_paths (w : World) (configFile : string)
    (config : oci_RuntimeConfig) : Prop :=
  proxy_narrows config = true /\
  shim_narrows config = true /\
  agent_narrows config = true /\
  resolvable w configFile /\
  resolvable w (shimPath_of config) /\
  resolvable w (agentBinPath_of config) /\
  snd (on_getHypervisorDetails w config) = None.

(** The three fatal host probes answer without error. *)
Definition host_probes_succeed (w : World) : Prop :=
  snd (on_getKernelVersion w) = None /\
  snd (on_getDistroDetails w) = None /\
  snd (on_getCPUDetails w) = None.

(** Modelled from the spec: the body of [getHypervisorDetails], which
    [cc-env.go] calls but does not define.  The specification says that the
    hypervisor, image and kernel paths of the hypervisor section are
    resolved, that the result is merely read by [getEnvInfo], and that the
    construction fails if one of them is unresolved; by the [PathInfo]
    invariant the resolved form is the symlink-resolved one. *)
Definition getHypervisorDetails_spec (resolve : string -> string * error)
    (config : oci_RuntimeConfig) : vc_HypervisorConfig * error :=
  let section := RuntimeConfig_HypervisorConfig config in
  let '(hypervisorPath, err) := resolve (HypervisorConfig_HypervisorPath section) in
  match err with
  | Some _ => (zero, err)
  | None =>
  let '(imagePath, err) := resolve (HypervisorConfig_ImagePath section) in
  match err with
  | Some _ => (zero, err)
  | None =>
  let '(kernelPath, err) := resolve (HypervisorConfig_KernelPath section) in
  match err with
  | Some _ => (zero, err)
  | None =>
      ({| HypervisorConfig_KernelPath := kernelPath;
          HypervisorConfig_ImagePath := imagePath;
          HypervisorConfig_HypervisorPath := hypervisorPath |}, None)
  end end end.

(** A world whose hypervisor details are the ones the specification
    describes. *)
Definition hypervisor_details_as_specified (w : World) : Prop :=
  forall config,
    on_getHypervisorDetails w config
    = getHypervisorDetails_spec (on_EvalSymlinks w) config.

(** ** Changing one answer of a world *)

Definition with_capability_probe (w : World) (answer : string -> error) : World :=
  {| version := version w; commit := commit w; specs_Version := specs_Version w;
     unknown := unknown w; procCPUInfo := procCPUInfo w;
     on_EvalSymlinks := on_EvalSymlinks w;
     on_getKernelVersion := on_getKernelVersion w;
     on_getDistroDetails := on_getDistroDetails w;
     on_getCPUDetails := on_getCPUDetails w;
     on_hostIsClearContainersCapable := answer;
     on_getHypervisorDetails := on_getHypervisorDetails w;
     on_Encode := on_Encode w;
     on_Fprintf := on_Fprintf w |}.

Definition with_kernel_version (w : World) (answer : string * error) : World :=
  {| version := version w; commit := commit w; specs_Version := specs_Version w;
     unknown := unknown w; procCPUInfo := procCPUInfo w;
     on_EvalSymlinks := on_EvalSymlinks w;
     on_getKernelVersion := answer;
     on_getDistroDetails := on_getDistroDetails w;
     on_getCPUDetails := on_getCPUDetails w;
     on_hostIsClearContainersCapable := on_hostIsClearContainersCapable w;
     on_getHypervisorDetails := on_getHypervisorDetails w;
     on_Encode := on_Encode w;
     on_Fprintf := on_Fprintf w |}.

Definition with_hypervisor_details (w : World)
    (answer : oci_RuntimeConfig -> vc_HypervisorConfig * error) : World :=
  {| version := version w; commit := commit w; specs_Version := specs_Version w;
     unknown := unknown w; procCPUInfo := procCPUInfo w;
     on_EvalSymlinks := on_EvalSymlinks w;
     on_getKernelVersion := on_getKernelVersion w;
     on_getDistroDetails := on_getDistroDetails w;
     on_getCPUDetails := on_getCPUDetails w;
     on_hostIsClearContainersCapable := on_hostIsClearContainersCapable w;
     on_getHypervisorDetails := answer;
     on_Encode := on_Encode w;
     on_Fprintf := on_Fprintf w |}.

(** ** A sample host

    The scenario of the specification: the configuration file resolves to
    itself and [/usr/bin/shim] is a symlink to [/usr/bin/shim-v2]. *)

(** A filesystem, as the map from each existing path to its resolved form. *)
Definition resolve_in (fs : gmap string string) (path : string) : string * error :=
  match fs !! path with
  | Some resolved => (resolved, None)
  | None => ("", Some (os_PathError "lstat" path "no such file or directory"))
  end.

Definition sample_fs : gmap string string :=
  list_to_map
    [ ("/etc/runtime/config.toml", "/etc/runtime/config.toml");
      ("/usr/bin/shim", "/usr/bin/shim-v2");
      ("/usr/bin/shim-v2", "/usr/bin/shim-v2");
      ("/usr/libexec/pause", "/usr/libexec/pause");
      ("/usr/bin/qemu", "/usr/bin/qemu-system-x86_64");
      ("/usr/share/containers.img", "/usr/share/containers-17.img");
      ("/usr/share/vmlinuz.container", "/usr/share/vmlinuz-4.9.container") ].

(** The text of the sample encoder plays no role below: only the fact that
    it was called, and on which value, is ever used. *)
Definition sample_world : World :=
  {| version := "3.0.0"; commit := "1a2b3c4"; specs_Version := "1.0.0-rc5";
     unknown := "<<unknown>>"; procCPUInfo := "/proc/cpuinfo";
     on_EvalSymlinks := resolve_in sample_fs;
     on_getKernelVersion := ("4.9.60", None);
     on_getDistroDetails := ("Clear Linux", "18000", None);
     on_getCPUDetails := ("GenuineIntel", "Intel(R) Core(TM) i7", None);
     on_hostIsClearContainersCapable := fun _ => None;
     on_getHypervisorDetails := getHypervisorDetails_spec (resolve_in sample_fs);
     on_Encode := fun v => ("[Meta]", None);
     on_Fprintf := fun _ _ => None |}.

Definition sample_config : oci_RuntimeConfig :=
  {| RuntimeConfig_HypervisorConfig :=
       {| HypervisorConfig_KernelPath := "/usr/share/vmlinuz.container";
          HypervisorConfig_ImagePath := "/usr/share/containers.img";
          HypervisorConfig_HypervisorPath := "/usr/bin/qemu" |};
     RuntimeConfig_AgentType := "hyperstart";
     RuntimeConfig_AgentConfig :=
       any_HyperConfig {| HyperConfig_PauseBinPath := "/usr/libexec/pause" |};
     RuntimeConfig_ProxyType := "ccProxy";
     RuntimeConfig_ProxyConfig :=
       any_CCProxyConfig {| CCProxyConfig_URL := "unix:///run/proxy.sock" |};
     RuntimeConfig_ShimType := "ccShim";
     RuntimeConfig_ShimConfig :=
       any_CCShimConfig {| CCShimConfig_Path := "/usr/bin/shim" |} |}.

Definition sample_context : cli_Context :=
  {| Context_App :=
       {| App_Metadata :=
            list_to_map
              [ ("configFile", any_string "/etc/runtime/config.toml");
                ("runtimeConfig", any_RuntimeConfig sample_config);
                ("logfilePath", any_string "/var/log/runtime.log") ] |} |}.

(** The same metadata, naming a configuration file that does not exist. *)
Definition absent_config_context : cli_Context :=
  {| Context_App :=
       {| App_Metadata :=
            list_to_map
              [ ("configFile", any_string "/etc/runtime/absent.toml");
                ("runtimeConfig", any_RuntimeConfig sample_config);
                ("logfilePath", any_string "/var/log/runtime.log") ] |} |}.

(** A host on which the capability probe fails. *)
Definition no_vmx : errorValue := errors_New "missing CPU flag: vmx".

Definition incapable_world : World :=
  with_capability_probe sample_world (fun _ => Some no_vmx).

(** A host on which reading the kernel version fails. *)
Definition no_proc_version : errorValue :=
  os_PathError "open" "/proc/version" "permission denied".

Definition unreadable_kernel_world : World :=
  with_kernel_version sample_world ("", Some no_proc_version).

(** A host on which, in addition, the hypervisor details cannot be had. *)
Definition no_hypervisor : errorValue :=
  os_PathError "lstat" "/usr/bin/qemu" "no such file or directory".

Definition no_hypervisor_world : World :=
  with_hypervisor_details unreadable_kernel_world (fun _ => (zero, Some no_hypervisor)).

(** A configuration whose proxy section holds a pointer, not the struct. *)
Definition pointer_proxy_config : oci_RuntimeConfig :=
  {| RuntimeConfig_HypervisorConfig := RuntimeConfig_HypervisorConfig sample_config;
     RuntimeConfig_AgentType := RuntimeConfig_AgentType sample_config;
     RuntimeConfig_AgentConfig := RuntimeConfig_AgentConfig sample_config;
     RuntimeConfig_ProxyType := RuntimeConfig_ProxyType sample_config;
     RuntimeConfig_ProxyConfig := any_other "*vc.CCProxyConfig";
     RuntimeConfig_ShimType := RuntimeConfig_ShimType sample_config;
     RuntimeConfig_ShimConfig := RuntimeConfig_ShimConfig sample_config |}.

(** ** The command

    [cli.Command], reduced to the fields [cc-env.go] sets.  The action runs
    in the world like every other function. *)
Record cli_Command : Type := {
  Command_Name : string;
  Command_Usage : string;
  Command_Action : World -> cli_Context -> M error
}.

Definition ccEnvCommand : cli_Command :=
  {| Command_Name := "cc-env";
     Command_Usage := "display settings";
     Command_Action := fun w context => handleSettings w context |}.

(** A context with other metadata, everything else unchanged. *)
Definition with_metadata (context : cli_Context) (metadata : gmap string any)
  : cli_Context :=
  {| Context_App := {| App_Metadata := metadata |} |}.

(** The three metadata keys [handleSettings] reads. *)
Definition metadata_keys : list string :=
  [ "configFile"; "runtimeConfig"; "logfilePath" ].

(** The calls of a run of [getHostInfo] in which no probe fails. *)
Definition host_calls (w : World) : list call :=
  [ GetKernelVersion; GetDistroDetails; GetCPUDetails;
    HostIsClearContainersCapable (procCPUInfo w) ].

(** ** More sample hosts and configurations *)

Definition with_encoder (w : World) (answer : EnvInfo -> string * error) : World :=
  {| version := version w; commit := commit w; specs_Version := specs_Version w;
     unknown := unknown w; procCPUInfo := procCPUInfo w;
     on_EvalSymlinks := on_EvalSymlinks w;
     on_getKernelVersion := on_getKernelVersion w;
     on_getDistroDetails := on_getDistroDetails w;
     on_getCPUDetails := on_getCPUDetails w;
     on_hostIsClearContainersCapable := on_hostIsClearContainersCapable w;
     on_getHypervisorDetails := on_getHypervisorDetails w;
     on_Encode := answer;
     on_Fprintf := on_Fprintf w |}.

Definition with_write (w : World) (answer : os_File -> string -> error) : World :=
  {| version := version w; commit := commit w; specs_Version := specs_Version w;
     unknown := unknown w; procCPUInfo := procCPUInfo w;
     on_EvalSymlinks := on_EvalSymlinks w;
     on_getKernelVersion := on_getKernelVersion w;
     on_getDistroDetails := on_getDistroDetails w;
     on_getCPUDetails := on_getCPUDetails w;
     on_hostIsClearContainersCapable := on_hostIsClearContainersCapable w;
     on_getHypervisorDetails := on_getHypervisorDetails w;
     on_Encode := on_Encode w;
     on_Fprintf := answer |}.

(** A host on which the encoder refuses the record. *)
Definition encoder_refuses : errorValue := errors_New "toml: cannot encode".

Definition broken_encoder_world : World :=
  with_encoder sample_world (fun _ => ("", Some encoder_refuses)).

(** A host on which standard output is a closed pipe. *)
Definition closed_pipe : errorValue :=
  os_PathError "write" "/dev/stdout" "broken pipe".

Definition closed_stdout_world : World :=
  with_write sample_world (fun _ _ => Some closed_pipe).

(** A configuration whose shim binary does not exist. *)
Definition absent_shim_config : oci_RuntimeConfig :=
  {| RuntimeConfig_HypervisorConfig := RuntimeConfig_HypervisorConfig sample_config;
     RuntimeConfig_AgentType := RuntimeConfig_AgentType sample_config;
     RuntimeConfig_AgentConfig := RuntimeConfig_AgentConfig sample_config;
     RuntimeConfig_ProxyType := RuntimeConfig_ProxyType sample_config;
     RuntimeConfig_ProxyConfig := RuntimeConfig_ProxyConfig sample_config;
     RuntimeConfig_ShimType := RuntimeConfig_ShimType sample_config;
     RuntimeConfig_ShimConfig :=
       any_CCShimConfig {| CCShimConfig_Path := "/usr/bin/absent-shim" |} |}.

(** Metadata carrying that configuration. *)
Definition absent_shim_context : cli_Context :=
  {| Context_App :=
       {| App_Metadata :=
            list_to_map
              [ ("configFile", any_string "/etc/runtime/config.toml");
                ("runtimeConfig", any_RuntimeConfig absent_shim_config);
                ("logfilePath", any_string "/var/log/runtime.log") ] |} |}.

(** ** Steps and the calls they make

    A fallible step is given by its outcome and the outside calls it makes
    while it runs.  [calls_until] lists the calls of a run that takes the
    steps in order and stops at the first one that fails: the calls of every
    step up to and including the failing one, and none of a later step. *)
Fixpoint calls_until (steps : list (error * list call)) : list call :=
  match steps with
  | [] => []
  | (Some _, made) :: _ => made
  | (None, made) :: rest => (made ++ calls_until rest)%list
  end.

(** The steps of [getHostInfo].  The capability probe is a step that cannot
    fail, whatever it answers. *)
Definition host_steps (w : World) : list (error * list call) :=
  [ (snd (on_getKernelVersion w), [GetKernelVersion]);
    (snd (on_getDistroDetails w), [GetDistroDetails]);
    (snd (on_getCPUDetails w), [GetCPUDetails]);
    (None, [HostIsClearContainersCapable (procCPUInfo w)]) ].

(** The steps of [getEnvInfo], in the order of [code_order], each with its
    calls; the three narrowings make none. *)
Definition code_steps (w : World) (configFile : string) (config : oci_RuntimeConfig)
  : list (error * list call) :=
  [ (snd (on_EvalSymlinks w configFile), [EvalSymlinks configFile]);
    (snd (on_getHypervisorDetails w config), [GetHypervisorDetails config]);
    (snd (on_getKernelVersion w), [GetKernelVersion]);
    (snd (on_getDistroDetails w), [GetDistroDetails]);
    (snd (on_getCPUDetails w), [GetCPUDetails]);
    (None, [HostIsClearContainersCapable (procCPUInfo w)]);
    (narrowing (snd (assert_CCProxyConfig (RuntimeConfig_ProxyConfig config))) "proxy",
     []);
    (narrowing (snd (assert_CCShimConfig (RuntimeConfig_ShimConfig config))) "shim",
     []);
    (snd (on_EvalSymlinks w (shimPath_of config)),
     [EvalSymlinks (shimPath_of config)]);
    (narrowing (snd (assert_HyperConfig (RuntimeConfig_AgentConfig config))) "agent",
     []);
    (snd (on_EvalSymlinks w (agentBinPath_of config)),
     [EvalSymlinks (agentBinPath_of config)]) ].

(** ** A sample host that prints the document

    A sample encoder for the witnesses that look at the text on standard
    output.  It lays the record out the way the TOML encoder lays out nested
    structs: one table per struct, named by the path of field names, plain
    keys before sub-tables, two spaces per level.  The strings of the
    samples need no escaping, and none is done. *)
Definition quoted (s : string) : string :=
  String (Ascii.ascii_of_nat 34) (s +:+ String (Ascii.ascii_of_nat 34) EmptyString).

Definition unlines (lines : list string) : string :=
  foldr (fun line rest => line +:+ String (Ascii.ascii_of_nat 10) rest)
        EmptyString lines.

Definition sample_toml_bool (b : bool) : string :=
  if b then "true" else "false".

Definition sample_toml_PathInfo (indent : string) (p : PathInfo) : list string :=
  [ indent +:+ "Path = " +:+ quoted (PathInfo_Path p);
    indent +:+ "Resolved = " +:+ quoted (PathInfo_Resolved p) ].

Definition sample_toml (v : EnvInfo) : string :=
  unlines
    ([ "[Meta]";
       "  Version = " +:+ quoted (MetaInfo_Version (EnvInfo_Meta v));
       EmptyString;
       "[Runtime]";
       "  [Runtime.Version]";
       "    Semver = "
         +:+ quoted (RuntimeVersionInfo_Semver (RuntimeInfo_Version (EnvInfo_Runtime v)));
       "    Commit = "
         +:+ quoted (RuntimeVersionInfo_Commit (RuntimeInfo_Version (EnvInfo_Runtime v)));
       "    OCI = "
         +:+ quoted (RuntimeVersionInfo_OCI (RuntimeInfo_Version (EnvInfo_Runtime v)));
       "  [Runtime.Config]";
       "    GlobalLogPath = "
         +:+ quoted (RuntimeConfigInfo_GlobalLogPath
                       (RuntimeInfo_Config (EnvInfo_Runtime v)));
       "    [Runtime.Config.Location]" ]
     ++ sample_toml_PathInfo "      "
          (RuntimeConfigInfo_Location (RuntimeInfo_Config (EnvInfo_Runtime v)))
     ++ [ EmptyString; "[Hypervisor]" ]
     ++ sample_toml_PathInfo "  " (EnvInfo_Hypervisor v)
     ++ [ EmptyString; "[Image]" ]
     ++ sample_toml_PathInfo "  " (EnvInfo_Image v)
     ++ [ EmptyString; "[Kernel]" ]
     ++ sample_toml_PathInfo "  " (EnvInfo_Kernel v)
     ++ [ EmptyString;
          "[Proxy]";
          "  Type = " +:+ quoted (ProxyInfo_Type (EnvInfo_Proxy v));
          "  Version = " +:+ quoted (ProxyInfo_Version (EnvInfo_Proxy v));
          "  URL = " +:+ quoted (ProxyInfo_URL (EnvInfo_Proxy v));
          EmptyString;
          "[Shim]";
          "  Type = " +:+ quoted (ShimInfo_Type (EnvInfo_Shim v));
          "  Version = " +:+ quoted (ShimInfo_Version (EnvInfo_Shim v));
          "  [Shim.Location]" ]
     ++ sample_toml_PathInfo "    " (ShimInfo_Location (EnvInfo_Shim v))
     ++ [ EmptyString;
          "[Agent]";
          "  Type = " +:+ quoted (AgentInfo_Type (EnvInfo_Agent v));
          "  Version = " +:+ quoted (AgentInfo_Version (EnvInfo_Agent v));
          "  [Agent.PauseBin]" ]
     ++ sample_toml_PathInfo "    " (AgentInfo_PauseBin (EnvInfo_Agent v))
     ++ [ EmptyString;
          "[Host]";
          "  Kernel = " +:+ quoted (HostInfo_Kernel (EnvInfo_Host v));
          "  CCCapable = " +:+ sample_toml_bool (HostInfo_CCCapable (EnvInfo_Host v));
          "  [Host.Distro]";
          "    Name = " +:+ quoted (DistroInfo_Name (HostInfo_Distro (EnvInfo_Host v)));
          "    Version = "
            +:+ quoted (DistroInfo_Version (HostInfo_Distro (EnvInfo_Host v)));
          "  [Host.CPU]";
          "    Vendor = " +:+ quoted (CPUInfo_Vendor (HostInfo_CPU (EnvInfo_Host v)));
          "    Model = " +:+ quoted (CPUInfo_Model (HostInfo_CPU (EnvInfo_Host v))) ])%list.

(** The sample host, printing. *)
Definition printing_world : World :=
  with_encoder sample_world (fun v => (sample_toml v, None)).

(** ** Running the functions *)

Ltac unfold_run :=
  unfold err, val, result, calls,
    handleSettings, showSettings, getEnvInfo, getRuntimeInfo, getHostInfo,
    getProxyInfo, getShimInfo, getAgentInfo, getMetaInfo,
    getHypervisorDetails, filepath_EvalSymlinks, getKernelVersion,
    getDistroDetails, getCPUDetails, hostIsClearContainersCapable,
    encoder_Encode, fmt_Fprintf, bind, ret, outside in *.

(** The run of [getEnvInfo], answer by answer in the order the answers are
    asked for; [close] ends every branch in which the run has stopped. *)
Ltac by_steps w configFile config close :=
  destruct (on_EvalSymlinks w configFile) as [? [?|]]; cbn; [close|];
  destruct (on_getHypervisorDetails w config) as [? [?|]]; cbn; [close|];
  destruct (on_getKernelVersion w) as [? [?|]]; cbn; [close|];
  destruct (on_getDistroDetails w) as [[? ?] [?|]]; cbn; [close|];
  destruct (on_getCPUDetails w) as [[? ?] [?|]]; cbn; [close|];
  destruct (on_hostIsClearContainersCapable w (procCPUInfo w)); cbn;
  (destruct (RuntimeConfig_ProxyConfig config); cbn; try close);
  (destruct (RuntimeConfig_ShimConfig config); cbn; try close);
  (destruct (on_EvalSymlinks w _) as [? [?|]]; cbn; try close);
  (destruct (RuntimeConfig_AgentConfig config); cbn; try close);
  (destruct (on_EvalSymlinks w _) as [? [?|]]; close).

Lemma getHostInfo_err (w : World) :
  err (getHostInfo w)
  = first_error [ snd (on_getKernelVersion w);
                  snd (on_getDistroDetails w);
                  snd (on_getCPUDetails w) ].
Proof.
  unfold_run.
  destruct (on_getKernelVersion w) as [? [?|]]; cbn; [reflexivity|].
  destruct (on_getDistroDetails w) as [[? ?] [?|]]; cbn; [reflexivity|].
  destruct (on_getCPUDetails w) as [[? ?] [?|]]; reflexivity.
Qed.

Lemma getEnvInfo_err (w : World) (configFile logfilePath : string)
    (config : oci_RuntimeConfig) :
  err (getEnvInfo w configFile logfilePath config)
  = first_error (code_order w configFile config).
Proof.
  unfold code_order, shimPath_of, agentBinPath_of, narrowing. unfold_run.
  by_steps w configFile config ltac:(reflexivity).
Qed.

(** *** What a successful run of each function tells *)

Lemma getRuntimeInfo_success (w : World) (configFile logFile : string)
    (config : oci_RuntimeConfig) (rt : RuntimeInfo) (made : list call) :
  getRuntimeInfo w configFile logFile config = (rt, None, made) ->
  exists resolved,
    on_EvalSymlinks w configFile = (resolved, None) /\
    rt = {| RuntimeInfo_Version :=
              {| RuntimeVersionInfo_Semver := version w;
                 RuntimeVersionInfo_Commit := commit w;
                 RuntimeVersionInfo_OCI := specs_Version w |};
            RuntimeInfo_Config :=
              {| RuntimeConfigInfo_Location :=
                   {| PathInfo_Path := configFile;
                      PathInfo_Resolved := resolved |};
                 RuntimeConfigInfo_GlobalLogPath := logFile |} |} /\
    made = [EvalSymlinks configFile].
Proof.
  unfold_run.
  destruct (on_EvalSymlinks w configFile) as [resolved [e|]]; cbn;
    intros H; inversion H; subst.
  exists resolved. auto.
Qed.

Lemma getHostInfo_success (w : World) (h : HostInfo) (made : list call) :
  getHostInfo w = (h, None, made) ->
  on_getKernelVersion w = (HostInfo_Kernel h, None) /\
  on_getDistroDetails w
  = (DistroInfo_Name (HostInfo_Distro h), DistroInfo_Version (HostInfo_Distro h), None) /\
  on_getCPUDetails w
  = (CPUInfo_Vendor (HostInfo_CPU h), CPUInfo_Model (HostInfo_CPU h), None) /\
  HostInfo_CCCapable h
  = is_nil (on_hostIsClearContainersCapable w (procCPUInfo w)) /\
  made = [ GetKernelVersion; GetDistroDetails; GetCPUDetails;
           HostIsClearContainersCapable (procCPUInfo w) ].
Proof.
  unfold_run.
  destruct (on_getKernelVersion w) as [? [?|]]; cbn; [discriminate|].
  destruct (on_getDistroDetails w) as [[? ?] [?|]]; cbn; [discriminate|].
  destruct (on_getCPUDetails w) as [[? ?] [?|]]; cbn; [discriminate|].
  destruct (on_hostIsClearContainersCapable w (procCPUInfo w)); cbn;
    intros H; inversion H; subst; cbn; auto.
Qed.

Lemma getProxyInfo_success (w : World) (config : oci_RuntimeConfig) (p : ProxyInfo) :
  getProxyInfo w config = (p, None) ->
  exists proxyConfig,
    RuntimeConfig_ProxyConfig config = any_CCProxyConfig proxyConfig /\
    p = {| ProxyInfo_Type := RuntimeConfig_ProxyType config;
           ProxyInfo_Version := unknown w;
           ProxyInfo_URL := CCProxyConfig_URL proxyConfig |}.
Proof.
  unfold getProxyInfo.
  destruct (RuntimeConfig_ProxyConfig config) as [| | c | | | |]; cbn;
    intros H; inversion H; subst.
  exists c. auto.
Qed.

Lemma getShimInfo_success (w : World) (config : oci_RuntimeConfig)
    (s : ShimInfo) (made : list call) :
  getShimInfo w config = (s, None, made) ->
  exists shimConfig resolved,
    RuntimeConfig_ShimConfig config = any_CCShimConfig shimConfig /\
    on_EvalSymlinks w (CCShimConfig_Path shimConfig) = (resolved, None) /\
    s = {| ShimInfo_Type := RuntimeConfig_ShimType config;
           ShimInfo_Version := unknown w;
           ShimInfo_Location :=
             {| PathInfo_Path := CCShimConfig_Path shimConfig;
                PathInfo_Resolved := resolved |} |} /\
    made = [EvalSymlinks (CCShimConfig_Path shimConfig)].
Proof.
  unfold_run.
  destruct (RuntimeConfig_ShimConfig config) as [| | | c | | |]; cbn;
    try discriminate.
  destruct (on_EvalSymlinks w (CCShimConfig_Path c)) as [resolved [e|]] eqn:E;
    cbn; intros H; inversion H; subst.
  exists c, resolved. auto.
Qed.

Lemma getAgentInfo_success (w : World) (config : oci_RuntimeConfig)
    (a : AgentInfo) (made : list call) :
  getAgentInfo w config = (a, None, made) ->
  exists agentConfig resolved,
    RuntimeConfig_AgentConfig config = any_HyperConfig agentConfig /\
    on_EvalSymlinks w (HyperConfig_PauseBinPath agentConfig) = (resolved, None) /\
    a = {| AgentInfo_Type := RuntimeConfig_AgentType config;
           AgentInfo_Version := unknown w;
           AgentInfo_PauseBin :=
             {| PathInfo_Path := HyperConfig_PauseBinPath agentConfig;
                PathInfo_Resolved := resolved |} |} /\
    made = [EvalSymlinks (HyperConfig_PauseBinPath agentConfig)].
Proof.
  unfold_run.
  destruct (RuntimeConfig_AgentConfig config) as [| | | | c | |]; cbn;
    try discriminate.
  destruct (on_EvalSymlinks w (HyperConfig_PauseBinPath c)) as [resolved [e|]] eqn:E;
    cbn; intros H; inversion H; subst.
  exists c, resolved. auto.
Qed.

Lemma getEnvInfo_success (w : World) (configFile logfilePath : string)
    (config : oci_RuntimeConfig) (env : EnvInfo) (made : list call) :
  getEnvInfo w configFile logfilePath config = (env, None, made) ->
  exists resolvedHypervisor m1 m3 m5 m6,
    getRuntimeInfo w configFile logfilePath config = (EnvInfo_Runtime env, None, m1) /\
    on_getHypervisorDetails w config = (resolvedHypervisor, None) /\
    getHostInfo w = (EnvInfo_Host env, None, m3) /\
    getProxyInfo w config = (EnvInfo_Proxy env, None) /\
    getShimInfo w config = (EnvInfo_Shim env, None, m5) /\
    getAgentInfo w config = (EnvInfo_Agent env, None, m6) /\
    EnvInfo_Meta env = getMetaInfo /\
    EnvInfo_Hypervisor env
    = {| PathInfo_Path :=
           HypervisorConfig_HypervisorPath (RuntimeConfig_HypervisorConfig config);
         PathInfo_Resolved := HypervisorConfig_HypervisorPath resolvedHypervisor |} /\
    EnvInfo_Image env
    = {| PathInfo_Path :=
           HypervisorConfig_ImagePath (RuntimeConfig_HypervisorConfig config);
         PathInfo_Resolved := HypervisorConfig_ImagePath resolvedHypervisor |} /\
    EnvInfo_Kernel env
    = {| PathInfo_Path :=
           HypervisorConfig_KernelPath (RuntimeConfig_HypervisorConfig config);
         PathInfo_Resolved := HypervisorConfig_KernelPath resolvedHypervisor |} /\
    made = (m1 ++ [GetHypervisorDetails config] ++ m3 ++ m5 ++ m6)%list.
Proof.
  unfold getEnvInfo, getHypervisorDetails, bind, ret, outside.
  destruct (getRuntimeInfo w configFile logfilePath config) as [[rt [?|]] m1];
    [discriminate|].
  destruct (on_getHypervisorDetails w config) as [hv [?|]]; [discriminate|].
  destruct (getHostInfo w) as [[h [?|]] m3]; [discriminate|].
  destruct (getProxyInfo w config) as [p [?|]]; [discriminate|].
  destruct (getShimInfo w config) as [[s [?|]] m5]; [discriminate|].
  destruct (getAgentInfo w config) as [[a [?|]] m6]; [discriminate|].
  intros H; inversion H; subst; cbn.
  exists hv, m1, m3, m5, m6.
  rewrite app_nil_r. repeat split; reflexivity.
Qed.

(** The value next to a non-nil error is the zero value. *)
Lemma getEnvInfo_zero (w : World) (configFile logfilePath : string)
    (config : oci_RuntimeConfig) :
  err (getEnvInfo w configFile logfilePath config) <> None ->
  val (getEnvInfo w configFile logfilePath config) = zero.
Proof.
  unfold err, val, result, getEnvInfo, getHypervisorDetails, bind, ret, outside.
  destruct (getRuntimeInfo w configFile logfilePath config) as [[rt [?|]] m1];
    [reflexivity|].
  destruct (on_getHypervisorDetails w config) as [hv [?|]]; [reflexivity|].
  destruct (getHostInfo w) as [[h [?|]] m3]; [reflexivity|].
  destruct (getProxyInfo w config) as [p [?|]]; [reflexivity|].
  destruct (getShimInfo w config) as [[s [?|]] m5]; [reflexivity|].
  destruct (getAgentInfo w config) as [[a [?|]] m6]; [reflexivity|].
  cbn. congruence.
Qed.

(** The calls of any run are an initial segment of the calls of a run
    without failure: nothing is attempted after the first failure. *)
Lemma getEnvInfo_calls (w : World) (configFile logfilePath : string)
    (config : oci_RuntimeConfig) :
  calls (getEnvInfo w configFile logfilePath config)
    `prefix_of` all_calls w configFile config.
Proof.
  unfold all_calls, shimPath_of, agentBinPath_of. unfold_run.
  by_steps w configFile config ltac:(by eexists).
Qed.

Lemma calls_bind {A B : Type} (m : M A) (k : A -> M B) :
  calls (bind m k) = (calls m ++ calls (k (result m)))%list.
Proof.
  unfold calls, result, bind. destruct m as [a made]. cbn.
  destruct (k a) as [b made']. reflexivity.
Qed.

Lemma bind_calls_prefix {A B : Type} (m : M A) (k : A -> M B) :
  calls m `prefix_of` calls (bind m k).
Proof. rewrite calls_bind. by eexists. Qed.

Lemma prefix_nothing_rendered (made full : list call) :
  made `prefix_of` full -> nothing_rendered full -> nothing_rendered made.
Proof.
  intros [rest ->]. unfold nothing_rendered.
  rewrite forallb_app. intros [H _]%andb_true_iff. exact H.
Qed.

(** [getEnvInfo] itself never encodes or writes. *)
Lemma getEnvInfo_nothing_rendered (w : World) (configFile logfilePath : string)
    (config : oci_RuntimeConfig) :
  nothing_rendered (calls (getEnvInfo w configFile logfilePath config)).
Proof.
  eapply prefix_nothing_rendered; [apply getEnvInfo_calls | reflexivity].
Qed.

(** [showSettings] hands the value to the encoder and writes the encoder's
    text, unchanged, to the file; an encoder error is returned before any
    write. *)
Lemma showSettings_writes_encoding (w : World) (ccEnv : EnvInfo) (file : os_File)
    (text : string) :
  on_Encode w ccEnv = (text, None) ->
  showSettings w ccEnv file
  = (on_Fprintf w file text, [Encode ccEnv; Fprintf file text]).
Proof. unfold_run. intros ->. reflexivity. Qed.

Lemma showSettings_encoder_error (w : World) (ccEnv : EnvInfo) (file : os_File)
    (text : string) (e : errorValue) :
  on_Encode w ccEnv = (text, Some e) ->
  showSettings w ccEnv file = (Some e, [Encode ccEnv]).
Proof. unfold_run. intros ->. reflexivity. Qed.

(** On the sample host the command asks its eight questions, encodes the
    record and writes the text to standard output. *)
Example sample_settings_shown :
  result (handleSettings sample_world sample_context) = None /\
  calls (handleSettings sample_world sample_context)
  = (all_calls sample_world "/etc/runtime/config.toml" sample_config
     ++ [ Encode (val (getEnvInfo sample_world "/etc/runtime/config.toml"
                         "/var/log/runtime.log" sample_config));
          Fprintf os_Stdout "[Meta]" ])%list /\
  written os_Stdout (calls (handleSettings sample_world sample_context)) = ["[Meta]"].
Proof. repeat split; vm_compute; reflexivity. Qed.

(** A failing [getEnvInfo] makes [handleSettings] return its error without
    rendering. *)
Lemma handleSettings_failure (w : World) (context : cli_Context) :
  forall configFile logfilePath runtimeConfig e,
    index (App_Metadata (Context_App context)) "configFile" = any_string configFile ->
    index (App_Metadata (Context_App context)) "runtimeConfig"
    = any_RuntimeConfig runtimeConfig ->
    index (App_Metadata (Context_App context)) "logfilePath" = any_string logfilePath ->
    err (getEnvInfo w configFile logfilePath runtimeConfig) = Some e ->
    handleSettings w context
    = (Some e, calls (getEnvInfo w configFile logfilePath runtimeConfig)).
Proof.
  intros configFile logfilePath runtimeConfig e H1 H2 H3.
  unfold handleSettings. rewrite H1, H2, H3. cbn.
  unfold err, result, calls, bind, ret.
  destruct (getEnvInfo w configFile logfilePath runtimeConfig) as [[env [e'|]] made];
    cbn; [|discriminate].
  intros [= ->]. by rewrite app_nil_r.
Qed.

(** *** Auxiliary facts for the narrowing and path properties *)

Lemma first_error_elem (steps : list error) (e : errorValue) :
  Some e ∈ steps -> first_error steps <> None.
Proof.
  induction steps as [|[e'|] steps IH]; cbn.
  - intros H. by apply elem_of_nil in H.
  - discriminate.
  - intros [H|H]%elem_of_cons; [discriminate | auto].
Qed.

Lemma getHypervisorDetails_spec_success (resolve : string -> string * error)
    (config : oci_RuntimeConfig) (hv : vc_HypervisorConfig) :
  getHypervisorDetails_spec resolve config = (hv, None) ->
  let section := RuntimeConfig_HypervisorConfig config in
  resolve (HypervisorConfig_HypervisorPath section)
  = (HypervisorConfig_HypervisorPath hv, None) /\
  resolve (HypervisorConfig_ImagePath section)
  = (HypervisorConfig_ImagePath hv, None) /\
  resolve (HypervisorConfig_KernelPath section)
  = (HypervisorConfig_KernelPath hv, None).
Proof.
  unfold getHypervisorDetails_spec.
  destruct (resolve (HypervisorConfig_HypervisorPath _)) as [? [?|]];
    [discriminate|].
  destruct (resolve (HypervisorConfig_ImagePath _)) as [? [?|]];
    [discriminate|].
  destruct (resolve (HypervisorConfig_KernelPath _)) as [? [?|]];
    [discriminate|].
  intros [= <-]. cbn. auto.
Qed.

(** When [getEnvInfo] always fails on a configuration, [handleSettings]
    fails on every metadata carrying it, and renders nothing. *)
Lemma handleSettings_never_renders (w : World) (config : oci_RuntimeConfig)
    (context : cli_Context) :
  (forall configFile logfilePath,
     err (getEnvInfo w configFile logfilePath config) <> None) ->
  index (App_Metadata (Context_App context)) "runtimeConfig" = any_RuntimeConfig config ->
  result (handleSettings w context) <> None /\
  nothing_rendered (calls (handleSettings w context)).
Proof.
  intros Hfail Hcfg.
  destruct (assert_string (index (App_Metadata (Context_App context)) "configFile"))
    as [configFile [|]] eqn:H1.
  - destruct (assert_string (index (App_Metadata (Context_App context)) "logfilePath"))
      as [logfilePath [|]] eqn:H3.
    + destruct (err (getEnvInfo w configFile logfilePath config)) as [e|] eqn:He;
        [|by destruct (Hfail configFile logfilePath)].
      rewrite (handleSettings_failure w context configFile logfilePath config e);
        try assumption.
      * split; [discriminate | apply getEnvInfo_nothing_rendered].
      * destruct (index _ "configFile"); cbn in H1; congruence.
      * destruct (index _ "logfilePath"); cbn in H3; congruence.
    + unfold handleSettings. rewrite H1, Hcfg, H3. cbn. split; [discriminate|reflexivity].
  - unfold handleSettings. rewrite H1. cbn. split; [discriminate|reflexivity].
Qed.

Lemma getEnvInfo_log_path (w : World) (configFile logfilePath logfilePath' : string)
    (config : oci_RuntimeConfig) :
  calls (getEnvInfo w configFile logfilePath config)
  = calls (getEnvInfo w configFile logfilePath' config).
Proof.
  unfold_run.
  by_steps w configFile config ltac:(reflexivity).
Qed.

(** *** The text written, the exact calls and the valid metadata *)

Lemma written_app (file : os_File) (made made' : list call) :
  written file (made ++ made') = (written file made ++ written file made')%list.
Proof.
  induction made as [|c made IH]; [reflexivity|].
  destruct c; cbn; try exact IH.
  destruct file0, file; cbn; rewrite ?IH; reflexivity.
Qed.

Lemma nothing_rendered_written (file : os_File) (made : list call) :
  nothing_rendered made -> written file made = [].
Proof.
  unfold nothing_rendered.
  induction made as [|c made IH]; [reflexivity|].
  destruct c; cbn; try exact IH; discriminate.
Qed.

(** With the three metadata entries in place [handleSettings] is
    [getEnvInfo] followed, on success, by [showSettings] on standard
    output. *)
Lemma handleSettings_valid (w : World) (context : cli_Context)
    (configFile logfilePath : string) (runtimeConfig : oci_RuntimeConfig) :
  index (App_Metadata (Context_App context)) "configFile" = any_string configFile ->
  index (App_Metadata (Context_App context)) "runtimeConfig"
  = any_RuntimeConfig runtimeConfig ->
  index (App_Metadata (Context_App context)) "logfilePath" = any_string logfilePath ->
  handleSettings w context
  = bind (getEnvInfo w configFile logfilePath runtimeConfig)
         (fun '(ccEnv, err) =>
            match err with
            | Some _ => ret err
            | None => showSettings w ccEnv os_Stdout
            end).
Proof.
  intros H1 H2 H3. unfold handleSettings. rewrite H1, H2, H3. reflexivity.
Qed.

(** The calls of [getHostInfo] are those of its steps up to the first
    failing one. *)
Lemma getHostInfo_calls_exact (w : World) :
  calls (getHostInfo w) = calls_until (host_steps w).
Proof.
  unfold host_steps. unfold_run.
  destruct (on_getKernelVersion w) as [? [?|]]; cbn; [reflexivity|].
  destruct (on_getDistroDetails w) as [[? ?] [?|]]; cbn; [reflexivity|].
  destruct (on_getCPUDetails w) as [[? ?] [?|]]; reflexivity.
Qed.

(** The calls of [getEnvInfo] are those of its steps up to the first failing
    one. *)
Lemma getEnvInfo_calls_exact (w : World) (configFile logfilePath : string)
    (config : oci_RuntimeConfig) :
  calls (getEnvInfo w configFile logfilePath config)
  = calls_until (code_steps w configFile config).
Proof.
  unfold code_steps, shimPath_of, agentBinPath_of, narrowing. unfold_run.
  by_steps w configFile config ltac:(reflexivity).
Qed.

(** The outcomes of [code_steps] are those of [code_order], with the
    capability probe, which cannot fail, in between. *)
Lemma code_steps_outcomes (w : World) (configFile : string)
    (config : oci_RuntimeConfig) :
  first_error (fst <$> code_steps w configFile config)
  = first_error (code_order w configFile config).
Proof.
  unfold code_steps, code_order. cbn.
  repeat match goal with
         | |- context [match ?e with Some _ => _ | None => _ end] =>
             destruct e; try reflexivity
         end.
Qed.

(** With the metadata in place and a successful snapshot, [handleSettings]
    encodes the record [getEnvInfo] returned, and nothing else, and writes
    the encoder's text to standard output. *)
Lemma handleSettings_encodes (w : World) (context : cli_Context)
    (configFile logfilePath : string) (runtimeConfig : oci_RuntimeConfig)
    (env : EnvInfo) (made : list call) :
  index (App_Metadata (Context_App context)) "configFile" = any_string configFile ->
  index (App_Metadata (Context_App context)) "runtimeConfig"
  = any_RuntimeConfig runtimeConfig ->
  index (App_Metadata (Context_App context)) "logfilePath" = any_string logfilePath ->
  getEnvInfo w configFile logfilePath runtimeConfig = (env, None, made) ->
  calls (handleSettings w context)
  = (made ++ Encode env
       :: match on_Encode w env with
          | (text, None) => [Fprintf os_Stdout text]
          | (_, Some _) => []
          end)%list /\
  (forall text,
     on_Encode w env = (text, None) ->
     written os_Stdout (calls (handleSettings w context)) = [text]).
Proof.
  intros H1 H2 H3 Hrun.
  assert (Hnone : nothing_rendered made).
  { pose proof (getEnvInfo_nothing_rendered w configFile logfilePath runtimeConfig)
      as Hn. by rewrite Hrun in Hn. }
  rewrite (handleSettings_valid w context configFile logfilePath runtimeConfig)
    by assumption.
  unfold bind. rewrite Hrun.
  destruct (on_Encode w env) as [text [e|]] eqn:Henc.
  - rewrite (showSettings_encoder_error w env os_Stdout text e Henc).
    split; [reflexivity | discriminate].
  - rewrite (showSettings_writes_encoding w env os_Stdout text Henc).
    split; [reflexivity|].
    intros text' [= <-]. unfold calls. cbn [snd].
    rewrite written_app, (nothing_rendered_written _ made Hnone). reflexivity.
Qed.

(** ** The properties of the specification *)

(** C1, as the code has it.  A section that is not of its concrete type
    makes its own function ([getProxyInfo], [getShimInfo], [getAgentInfo])
    fail with the error naming the subsystem and the zero value; it makes
    [getEnvInfo] fail with the zero [EnvInfo], and [handleSettings] fail
    without rendering.  The error [getEnvInfo] reports is the one naming the
    subsystem when every step before that narrowing succeeds; otherwise it
    is the error of the earlier failing step: in every case the error is
    the first one in the order of [code_order], and the calls made are
    those of the steps up to the failing one. *)
Theorem narrowing_failure_aborts (w : World) (config : oci_RuntimeConfig) :
  (proxy_narrows config = false ->
   getProxyInfo w config
   = (zero, Some (errors_New "cannot determine proxy config"))) /\
  (shim_narrows config = false ->
   getShimInfo w config
   = (zero, Some (errors_New "cannot determine shim config"), [])) /\
  (agent_narrows config = false ->
   getAgentInfo w config
   = (zero, Some (errors_New "cannot determine agent config"), [])) /\
  (proxy_narrows config && shim_narrows config && agent_narrows config = false ->
   forall configFile logfilePath,
     err (getEnvInfo w configFile logfilePath config) <> None /\
     val (getEnvInfo w configFile logfilePath config) = zero /\
     nothing_rendered (calls (getEnvInfo w configFile logfilePath config)) /\
     forall context,
       index (App_Metadata (Context_App context)) "runtimeConfig"
       = any_RuntimeConfig config ->
       result (handleSettings w context) <> None /\
       nothing_rendered (calls (handleSettings w context))) /\
  (forall configFile logfilePath,
     resolvable w configFile ->
     snd (on_getHypervisorDetails w config) = None ->
     host_probes_succeed w ->
     (proxy_narrows config = false ->
      err (getEnvInfo w configFile logfilePath config)
      = Some (errors_New "cannot determine proxy config")) /\
     (proxy_narrows config = true ->
      shim_narrows config = false ->
      err (getEnvInfo w configFile logfilePath config)
      = Some (errors_New "cannot determine shim config")) /\
     (proxy_narrows config = true ->
      shim_narrows config = true ->
      resolvable w (shimPath_of config) ->
      agent_narrows config = false ->
      err (getEnvInfo w configFile logfilePath config)
      = Some (errors_New "cannot determine agent config"))) /\
  (forall configFile logfilePath,
     err (getEnvInfo w configFile logfilePath config)
     = first_error (code_order w configFile config) /\
     calls (getEnvInfo w configFile logfilePath config)
     = calls_until (code_steps w configFile config)).
Proof.
  unfold proxy_narrows, shim_narrows, agent_narrows.
  split; [|split; [|split; [|split; [|split]]]].
  - unfold getProxyInfo.
    destruct (RuntimeConfig_ProxyConfig config); cbn; congruence.
  - unfold getShimInfo, ret.
    destruct (RuntimeConfig_ShimConfig config); cbn; congruence.
  - unfold getAgentInfo, ret.
    destruct (RuntimeConfig_AgentConfig config); cbn; congruence.
  - intros Hbad.
    assert (Hfail : forall configFile logfilePath,
               err (getEnvInfo w configFile logfilePath config) <> None).
    { intros configFile logfilePath. rewrite getEnvInfo_err. unfold code_order.
      destruct (snd (assert_CCProxyConfig _)) eqn:Hp;
        [|eapply first_error_elem; cbn; repeat constructor].
      destruct (snd (assert_CCShimConfig _)) eqn:Hs;
        [|eapply first_error_elem; cbn; repeat constructor].
      destruct (snd (assert_HyperConfig _)) eqn:Ha; [discriminate|].
      eapply first_error_elem; cbn; repeat constructor. }
    intros configFile logfilePath.
    split; [apply Hfail|].
    split; [apply getEnvInfo_zero, Hfail|].
    split; [apply getEnvInfo_nothing_rendered|].
    intros context Hcfg. by apply handleSettings_never_renders with config.
  - intros configFile logfilePath Hcf Hhv (Hk & Hd & Hc).
    unfold resolvable in *.
    rewrite getEnvInfo_err. unfold code_order. rewrite Hcf, Hhv, Hk, Hd, Hc.
    split; [|split].
    + intros ->. reflexivity.
    + intros -> ->. reflexivity.
    + intros -> -> -> ->. reflexivity.
  - intros configFile logfilePath.
    split; [apply getEnvInfo_err | apply getEnvInfo_calls_exact].
Qed.

Lemma narrowing_failure_aborts_witness :
  proxy_narrows pointer_proxy_config = false /\
  err (getEnvInfo sample_world "/etc/runtime/config.toml" "/var/log/runtime.log"
         pointer_proxy_config)
  = Some (errors_New "cannot determine proxy config").
Proof.
  split; [reflexivity|].
  destruct (narrowing_failure_aborts sample_world pointer_proxy_config)
    as (_ & _ & _ & _ & H & _).
  apply (H "/etc/runtime/config.toml" "/var/log/runtime.log").
  - vm_compute. reflexivity.
  - vm_compute. reflexivity.
  - repeat split; vm_compute; reflexivity.
  - reflexivity.
Defined.

(** C1, as stated, fails: with a proxy section of the wrong type and a
    configuration file that does not exist, [getEnvInfo] reports the
    path-resolution error, not the error naming the proxy. *)
Lemma narrowing_error_preempted :
  proxy_narrows pointer_proxy_config = false /\
  getEnvInfo sample_world "/etc/runtime/absent.toml" "/var/log/runtime.log"
    pointer_proxy_config
  = (zero,
     Some (os_PathError "lstat" "/etc/runtime/absent.toml" "no such file or directory"),
     [EvalSymlinks "/etc/runtime/absent.toml"]) /\
  err (getEnvInfo sample_world "/etc/runtime/absent.toml" "/var/log/runtime.log"
         pointer_proxy_config)
  <> Some (errors_New "cannot determine proxy config").
Proof.
  split; [reflexivity|].
  split; [vm_compute; reflexivity|].
  vm_compute. discriminate.
Qed.

(** C2.  The answer of the capability probe never decides whether
    [getHostInfo] or [getEnvInfo] fail: replacing it by any other answer
    leaves their error unchanged, and [getHostInfo] succeeds as soon as the
    kernel, distribution and CPU probes do.  In every successful result
    [CCCapable] is [false] when the probe returned an error and [true] when
    it returned nil. *)
Theorem capability_probe_failure_not_propagated (w : World) :
  (forall probe,
     err (getHostInfo (with_capability_probe w probe)) = err (getHostInfo w)) /\
  (forall probe configFile logfilePath config,
     err (getEnvInfo (with_capability_probe w probe) configFile logfilePath config)
     = err (getEnvInfo w configFile logfilePath config)) /\
  (host_probes_succeed w -> err (getHostInfo w) = None) /\
  (forall h made,
     getHostInfo w = (h, None, made) ->
     HostInfo_CCCapable h
     = is_nil (on_hostIsClearContainersCapable w (procCPUInfo w))) /\
  (forall configFile logfilePath config env made,
     getEnvInfo w configFile logfilePath config = (env, None, made) ->
     HostInfo_CCCapable (EnvInfo_Host env)
     = is_nil (on_hostIsClearContainersCapable w (procCPUInfo w))).
Proof.
  split; [|split; [|split; [|split]]].
  - intros probe. rewrite !getHostInfo_err. reflexivity.
  - intros probe configFile logfilePath config. rewrite !getEnvInfo_err.
    reflexivity.
  - intros (Hk & Hd & Hc). rewrite getHostInfo_err, Hk, Hd, Hc. reflexivity.
  - intros h made Hrun.
    apply getHostInfo_success in Hrun as (_ & _ & _ & Hcap & _). exact Hcap.
  - intros configFile logfilePath config env made Hrun.
    apply getEnvInfo_success in Hrun
      as (hv & m1 & m3 & m5 & m6 & _ & _ & Hhost & _).
    apply getHostInfo_success in Hhost as (_ & _ & _ & Hcap & _). exact Hcap.
Qed.

Lemma capability_probe_failure_not_propagated_witness :
  on_hostIsClearContainersCapable incapable_world (procCPUInfo incapable_world)
  = Some no_vmx /\
  err (getEnvInfo incapable_world "/etc/runtime/config.toml" "/var/log/runtime.log"
         sample_config) = None /\
  HostInfo_CCCapable
    (EnvInfo_Host
       (val (getEnvInfo incapable_world "/etc/runtime/config.toml"
               "/var/log/runtime.log" sample_config)))
  = false.
Proof.
  split; [reflexivity|]. split; [vm_compute; reflexivity|].
  destruct (capability_probe_failure_not_propagated incapable_world)
    as (_ & _ & _ & _ & H).
  rewrite (H "/etc/runtime/config.toml" "/var/log/runtime.log" sample_config
             (val (getEnvInfo incapable_world "/etc/runtime/config.toml"
                     "/var/log/runtime.log" sample_config))
             (calls (getEnvInfo incapable_world "/etc/runtime/config.toml"
                       "/var/log/runtime.log" sample_config))).
  - reflexivity.
  - vm_compute. reflexivity.
Defined.

(** C3.  When the configuration file path cannot be symlink-resolved,
    [getEnvInfo] stops at that very first call: it returns the resolution
    error next to the zero [EnvInfo], and [handleSettings] returns the same
    error having neither encoded nor written anything. *)
Theorem unresolvable_config_file_aborts (w : World) (configFile logfilePath : string)
    (config : oci_RuntimeConfig) (resolved : string) (e : errorValue) :
  on_EvalSymlinks w configFile = (resolved, Some e) ->
  getEnvInfo w configFile logfilePath config
  = (zero, Some e, [EvalSymlinks configFile]) /\
  forall context,
    index (App_Metadata (Context_App context)) "configFile" = any_string configFile ->
    index (App_Metadata (Context_App context)) "runtimeConfig" = any_RuntimeConfig config ->
    index (App_Metadata (Context_App context)) "logfilePath" = any_string logfilePath ->
    handleSettings w context = (Some e, [EvalSymlinks configFile]) /\
    nothing_rendered (calls (handleSettings w context)) /\
    written os_Stdout (calls (handleSettings w context)) = [].
Proof.
  intros Hcf.
  assert (Hrun : getEnvInfo w configFile logfilePath config
                 = (zero, Some e, [EvalSymlinks configFile])).
  { unfold_run. rewrite Hcf. reflexivity. }
  split; [exact Hrun|].
  intros context H1 H2 H3.
  assert (Hh : handleSettings w context = (Some e, [EvalSymlinks configFile])).
  { rewrite (handleSettings_failure w context configFile logfilePath config e H1 H2 H3).
    - by rewrite Hrun.
    - by rewrite Hrun. }
  rewrite Hh. repeat split.
Qed.

Lemma unresolvable_config_file_aborts_witness :
  on_EvalSymlinks sample_world "/etc/runtime/absent.toml"
  = ("", Some (os_PathError "lstat" "/etc/runtime/absent.toml"
                            "no such file or directory")) /\
  getEnvInfo sample_world "/etc/runtime/absent.toml" "/var/log/runtime.log" sample_config
  = (zero,
     Some (os_PathError "lstat" "/etc/runtime/absent.toml" "no such file or directory"),
     [EvalSymlinks "/etc/runtime/absent.toml"]) /\
  handleSettings sample_world absent_config_context
  = (Some (os_PathError "lstat" "/etc/runtime/absent.toml" "no such file or directory"),
     [EvalSymlinks "/etc/runtime/absent.toml"]).
Proof.
  split; [vm_compute; reflexivity|].
  destruct (unresolvable_config_file_aborts sample_world "/etc/runtime/absent.toml"
              "/var/log/runtime.log" sample_config ""
              (os_PathError "lstat" "/etc/runtime/absent.toml"
                            "no such file or directory"))
    as [Henv Hsettings].
  - vm_compute. reflexivity.
  - split; [exact Henv|].
    apply (Hsettings absent_config_context); vm_compute; reflexivity.
Defined.

(** C4, as the code has it.  The error of [getEnvInfo] is the error of the
    first failing step in the order: configuration file resolution,
    hypervisor details, kernel version, distribution, CPU, proxy narrowing,
    shim narrowing, shim path, agent narrowing, agent path.  A failure
    returns the zero [EnvInfo], and no step after the failing one is
    attempted: the calls made are exactly those of the steps up to and
    including the first failing one.  In particular an error of the
    hypervisor details is reported whatever the host probes answer, and the
    host probes are then not asked. *)
Theorem first_failure_in_code_order_aborts (w : World)
    (configFile logfilePath : string) (config : oci_RuntimeConfig) :
  err (getEnvInfo w configFile logfilePath config)
  = first_error (code_order w configFile config) /\
  (err (getEnvInfo w configFile logfilePath config) <> None ->
   val (getEnvInfo w configFile logfilePath config) = zero) /\
  calls (getEnvInfo w configFile logfilePath config)
    `prefix_of` all_calls w configFile config /\
  (forall e,
     resolvable w configFile ->
     snd (on_getHypervisorDetails w config) = Some e ->
     err (getEnvInfo w configFile logfilePath config) = Some e) /\
  calls (getEnvInfo w configFile logfilePath config)
  = calls_until (code_steps w configFile config) /\
  err (getEnvInfo w configFile logfilePath config)
  = first_error (fst <$> code_steps w configFile config) /\
  (forall e,
     resolvable w configFile ->
     snd (on_getHypervisorDetails w config) = Some e ->
     getEnvInfo w configFile logfilePath config
     = (zero, Some e, [EvalSymlinks configFile; GetHypervisorDetails config])).
Proof.
  split; [apply getEnvInfo_err|].
  split; [apply getEnvInfo_zero|].
  split; [apply getEnvInfo_calls|].
  split.
  { intros e Hcf Hhv. rewrite getEnvInfo_err. unfold code_order.
    unfold resolvable in Hcf. rewrite Hcf, Hhv. reflexivity. }
  split; [apply getEnvInfo_calls_exact|].
  split; [rewrite code_steps_outcomes; apply getEnvInfo_err|].
  intros e Hcf Hhv. unfold resolvable in Hcf. unfold_run.
  destruct (on_EvalSymlinks w configFile) as [? [?|]]; [discriminate|].
  destruct (on_getHypervisorDetails w config) as [? [?|]]; [|discriminate].
  cbn in Hhv. injection Hhv as ->. reflexivity.
Qed.

Lemma first_failure_in_code_order_aborts_witness :
  snd (on_getKernelVersion no_hypervisor_world) = Some no_proc_version /\
  err (getEnvInfo no_hypervisor_world "/etc/runtime/config.toml"
         "/var/log/runtime.log" sample_config)
  = Some no_hypervisor.
Proof.
  split; [reflexivity|].
  destruct (first_failure_in_code_order_aborts no_hypervisor_world
              "/etc/runtime/config.toml" "/var/log/runtime.log" sample_config)
    as (_ & _ & _ & H & _).
  apply H.
  - vm_compute. reflexivity.
  - reflexivity.
Defined.

(** C4, as stated, fails: on a host where both the hypervisor details and
    the kernel version probe fail, the order listed in the specification
    would report the probe's error, while [getEnvInfo] reports the
    hypervisor error and never reaches the probe. *)
Lemma listed_order_refuted :
  first_error (listed_order no_hypervisor_world "/etc/runtime/config.toml" sample_config)
  = Some no_proc_version /\
  getEnvInfo no_hypervisor_world "/etc/runtime/config.toml" "/var/log/runtime.log"
    sample_config
  = (zero, Some no_hypervisor,
     [EvalSymlinks "/etc/runtime/config.toml"; GetHypervisorDetails sample_config]) /\
  err (getEnvInfo no_hypervisor_world "/etc/runtime/config.toml"
         "/var/log/runtime.log" sample_config)
  <> first_error (listed_order no_hypervisor_world "/etc/runtime/config.toml"
                    sample_config).
Proof.
  split; [vm_compute; reflexivity|].
  split; [vm_compute; reflexivity|].
  vm_compute. discriminate.
Qed.

(** C5, as the code has it.  For a valid runtime configuration with
    resolvable paths, on a host whose kernel, distribution and CPU probes
    succeed, [getEnvInfo] succeeds; and every [EnvInfo] it returns without
    error has [Meta.Version] equal to [formatVersion], which is "1.0.0". *)
Theorem meta_version_is_formatVersion (w : World)
    (configFile logfilePath : string) (config : oci_RuntimeConfig) :
  (valid_with_resolvable_paths w configFile config ->
   host_probes_succeed w ->
   exists env made,
     getEnvInfo w configFile logfilePath config = (env, None, made) /\
     MetaInfo_Version (EnvInfo_Meta env) = formatVersion) /\
  (forall env made,
     getEnvInfo w configFile logfilePath config = (env, None, made) ->
     MetaInfo_Version (EnvInfo_Meta env) = formatVersion) /\
  formatVersion = "1.0.0".
Proof.
  assert (Hmeta : forall env made,
             getEnvInfo w configFile logfilePath config = (env, None, made) ->
             MetaInfo_Version (EnvInfo_Meta env) = formatVersion).
  { intros env made Hrun.
    apply getEnvInfo_success in Hrun
      as (hv & m1 & m3 & m5 & m6 & _ & _ & _ & _ & _ & _ & -> & _).
    reflexivity. }
  split; [|split; [exact Hmeta | reflexivity]].
  intros (Hp & Hs & Ha & Hcf & Hsp & Hap & Hhv) (Hk & Hd & Hc).
  assert (Herr : err (getEnvInfo w configFile logfilePath config) = None).
  { rewrite getEnvInfo_err. unfold code_order.
    unfold proxy_narrows, shim_narrows, agent_narrows, resolvable in *.
    rewrite Hcf, Hhv, Hk, Hd, Hc, Hp, Hs, Hsp, Ha, Hap. reflexivity. }
  unfold err, result in Herr.
  destruct (getEnvInfo w configFile logfilePath config) as [[env e] made] eqn:Hrun.
  cbn in Herr. subst e.
  exists env, made. split; [reflexivity|]. eapply Hmeta. reflexivity.
Qed.

Lemma meta_version_is_formatVersion_witness :
  exists env made,
    getEnvInfo sample_world "/etc/runtime/config.toml" "/var/log/runtime.log"
      sample_config = (env, None, made) /\
    MetaInfo_Version (EnvInfo_Meta env) = formatVersion.
Proof.
  apply (meta_version_is_formatVersion sample_world "/etc/runtime/config.toml"
           "/var/log/runtime.log" sample_config).
  - repeat split; vm_compute; reflexivity.
  - repeat split; vm_compute; reflexivity.
Defined.

(** C5, as stated, fails: the sample configuration is valid and all its
    paths resolve, yet on a host whose kernel version cannot be read
    [getEnvInfo] fails with the probe's error. *)
Lemma valid_config_fails_on_host_probe :
  valid_with_resolvable_paths unreadable_kernel_world "/etc/runtime/config.toml"
    sample_config /\
  getEnvInfo unreadable_kernel_world "/etc/runtime/config.toml" "/var/log/runtime.log"
    sample_config
  = (zero, Some no_proc_version,
     [EvalSymlinks "/etc/runtime/config.toml"; GetHypervisorDetails sample_config;
      GetKernelVersion]).
Proof.
  split; [repeat split; vm_compute; reflexivity|].
  vm_compute. reflexivity.
Qed.

(** C6.  On a host whose hypervisor details are the ones the specification
    describes, every [PathInfo] of a successfully returned [EnvInfo]
    (configuration file, hypervisor, image, kernel, shim, pause binary) has
    as [Resolved] the symlink-resolved form of its [Path], and the [Path]
    fields are the configured paths; if one of the configured paths cannot
    be resolved, [getEnvInfo] fails.  A shim path [p] that resolves to [r]
    gives [Shim.Location] the pair of [p] and [r].  The document is made
    from that very record: [handleSettings] hands the record [getEnvInfo]
    returned, and no other, to the encoder, and what standard output
    receives is the encoder's text of it, so the document's
    [Shim.Location] is the pair of [p] and [r]. *)
Theorem pathinfo_resolved_invariant (w : World) (configFile logfilePath : string)
    (config : oci_RuntimeConfig) :
  hypervisor_details_as_specified w ->
  (forall env made,
     getEnvInfo w configFile logfilePath config = (env, None, made) ->
     Forall (resolved_in w) (pathInfos env) /\
     PathInfo_Path <$> pathInfos env = configured_paths configFile config) /\
  (forall path,
     path ∈ configured_paths configFile config ->
     ~ resolvable w path ->
     err (getEnvInfo w configFile logfilePath config) <> None) /\
  (forall env made p r,
     RuntimeConfig_ShimConfig config = any_CCShimConfig {| CCShimConfig_Path := p |} ->
     on_EvalSymlinks w p = (r, None) ->
     getEnvInfo w configFile logfilePath config = (env, None, made) ->
     ShimInfo_Location (EnvInfo_Shim env)
     = {| PathInfo_Path := p; PathInfo_Resolved := r |}) /\
  (forall context env made,
     index (App_Metadata (Context_App context)) "configFile" = any_string configFile ->
     index (App_Metadata (Context_App context)) "runtimeConfig"
     = any_RuntimeConfig config ->
     index (App_Metadata (Context_App context)) "logfilePath"
     = any_string logfilePath ->
     getEnvInfo w configFile logfilePath config = (env, None, made) ->
     calls (handleSettings w context)
     = (made ++ Encode env
          :: match on_Encode w env with
             | (text, None) => [Fprintf os_Stdout text]
             | (_, Some _) => []
             end)%list /\
     (forall text,
        on_Encode w env = (text, None) ->
        written os_Stdout (calls (handleSettings w context)) = [text]) /\
     Forall (resolved_in w) (pathInfos env) /\
     (forall p r,
        RuntimeConfig_ShimConfig config
        = any_CCShimConfig {| CCShimConfig_Path := p |} ->
        on_EvalSymlinks w p = (r, None) ->
        ShimInfo_Location (EnvInfo_Shim env)
        = {| PathInfo_Path := p; PathInfo_Resolved := r |})).
Proof.
  intros Hspec.
  assert (Hinv : forall env made,
             getEnvInfo w configFile logfilePath config = (env, None, made) ->
             Forall (resolved_in w) (pathInfos env) /\
             PathInfo_Path <$> pathInfos env = configured_paths configFile config).
  { intros env made Hrun.
    apply getEnvInfo_success in Hrun
      as (hv & m1 & m3 & m5 & m6 & Hrt & Hhv & _ & _ & Hshim & Hagent & _
          & Hh & Hi & Hk & _).
    apply getRuntimeInfo_success in Hrt as (r0 & Hr0 & Hrt & _).
    apply getShimInfo_success in Hshim as (sc & rs & Hsc & Hrs & Hshim & _).
    apply getAgentInfo_success in Hagent as (ac & ra & Hac & Hra & Hagent & _).
    rewrite Hspec in Hhv.
    apply getHypervisorDetails_spec_success in Hhv as (Hhp & Hip & Hkp).
    unfold pathInfos, configured_paths, shimPath_of, agentBinPath_of, resolved_in.
    rewrite Hrt, Hh, Hi, Hk, Hshim, Hagent, Hsc, Hac. cbn.
    split; [|reflexivity].
    repeat constructor; assumption. }
  assert (Hloc : forall env made p r,
             RuntimeConfig_ShimConfig config
             = any_CCShimConfig {| CCShimConfig_Path := p |} ->
             on_EvalSymlinks w p = (r, None) ->
             getEnvInfo w configFile logfilePath config = (env, None, made) ->
             ShimInfo_Location (EnvInfo_Shim env)
             = {| PathInfo_Path := p; PathInfo_Resolved := r |}).
  { intros env made p r Hsc Hr Hrun.
    apply getEnvInfo_success in Hrun
      as (hv & m1 & m3 & m5 & m6 & _ & _ & _ & _ & Hshim & _).
    apply getShimInfo_success in Hshim as (sc & rs & Hsc' & Hrs & -> & _).
    rewrite Hsc in Hsc'. injection Hsc' as <-. cbn in *.
    rewrite Hr in Hrs. injection Hrs as <-. reflexivity. }
  split; [exact Hinv|]. split; [|split; [exact Hloc|]].
  - intros path Hin Hbad Herr. apply Hbad.
    unfold err, result in Herr.
    destruct (getEnvInfo w configFile logfilePath config) as [[env e] made] eqn:Hrun.
    cbn in Herr. subst e.
    destruct (Hinv env made eq_refl) as [Hall Hpaths].
    rewrite <- Hpaths in Hin.
    apply list_elem_of_fmap in Hin as (p & -> & Hp).
    rewrite Forall_forall in Hall. specialize (Hall p Hp).
    unfold resolvable. unfold resolved_in in Hall. by rewrite Hall.
  - intros context env made H1 H2 H3 Hrun.
    destruct (handleSettings_encodes w context configFile logfilePath config env made
                H1 H2 H3 Hrun) as [Hcalls Hwritten].
    split; [exact Hcalls|]. split; [exact Hwritten|].
    split; [apply (Hinv env made Hrun)|].
    intros p r Hsc Hr. by apply Hloc with made.
Qed.

Lemma pathinfo_resolved_invariant_witness :
  ShimInfo_Location
    (EnvInfo_Shim
       (val (getEnvInfo sample_world "/etc/runtime/config.toml" "/var/log/runtime.log"
               sample_config)))
  = {| PathInfo_Path := "/usr/bin/shim"; PathInfo_Resolved := "/usr/bin/shim-v2" |} /\
  written os_Stdout (calls (handleSettings printing_world sample_context))
  = [ unlines
        [ "[Meta]";
          "  Version = " +:+ quoted "1.0.0";
          EmptyString;
          "[Runtime]";
          "  [Runtime.Version]";
          "    Semver = " +:+ quoted "3.0.0";
          "    Commit = " +:+ quoted "1a2b3c4";
          "    OCI = " +:+ quoted "1.0.0-rc5";
          "  [Runtime.Config]";
          "    GlobalLogPath = " +:+ quoted "/var/log/runtime.log";
          "    [Runtime.Config.Location]";
          "      Path = " +:+ quoted "/etc/runtime/config.toml";
          "      Resolved = " +:+ quoted "/etc/runtime/config.toml";
          EmptyString;
          "[Hypervisor]";
          "  Path = " +:+ quoted "/usr/bin/qemu";
          "  Resolved = " +:+ quoted "/usr/bin/qemu-system-x86_64";
          EmptyString;
          "[Image]";
          "  Path = " +:+ quoted "/usr/share/containers.img";
          "  Resolved = " +:+ quoted "/usr/share/containers-17.img";
          EmptyString;
          "[Kernel]";
          "  Path = " +:+ quoted "/usr/share/vmlinuz.container";
          "  Resolved = " +:+ quoted "/usr/share/vmlinuz-4.9.container";
          EmptyString;
          "[Proxy]";
          "  Type = " +:+ quoted "ccProxy";
          "  Version = " +:+ quoted "<<unknown>>";
          "  URL = " +:+ quoted "unix:///run/proxy.sock";
          EmptyString;
          "[Shim]";
          "  Type = " +:+ quoted "ccShim";
          "  Version = " +:+ quoted "<<unknown>>";
          "  [Shim.Location]";
          "    Path = " +:+ quoted "/usr/bin/shim";
          "    Resolved = " +:+ quoted "/usr/bin/shim-v2";
          EmptyString;
          "[Agent]";
          "  Type = " +:+ quoted "hyperstart";
          "  Version = " +:+ quoted "<<unknown>>";
          "  [Agent.PauseBin]";
          "    Path = " +:+ quoted "/usr/libexec/pause";
          "    Resolved = " +:+ quoted "/usr/libexec/pause";
          EmptyString;
          "[Host]";
          "  Kernel = " +:+ quoted "4.9.60";
          "  CCCapable = true";
          "  [Host.Distro]";
          "    Name = " +:+ quoted "Clear Linux";
          "    Version = " +:+ quoted "18000";
          "  [Host.CPU]";
          "    Vendor = " +:+ quoted "GenuineIntel";
          "    Model = " +:+ quoted "Intel(R) Core(TM) i7" ] ].
Proof.
  split.
  - assert (Hspec : hypervisor_details_as_specified sample_world)
      by (intros config; reflexivity).
    destruct (pathinfo_resolved_invariant sample_world "/etc/runtime/config.toml"
                "/var/log/runtime.log" sample_config Hspec) as (_ & _ & H & _).
    apply (H _ (calls (getEnvInfo sample_world "/etc/runtime/config.toml"
                         "/var/log/runtime.log" sample_config))).
    + reflexivity.
    + vm_compute. reflexivity.
    + vm_compute. reflexivity.
  - assert (Hspec : hypervisor_details_as_specified printing_world)
      by (intros config; reflexivity).
    destruct (pathinfo_resolved_invariant printing_world "/etc/runtime/config.toml"
                "/var/log/runtime.log" sample_config Hspec) as (_ & _ & _ & H).
    destruct (H sample_context
                (val (getEnvInfo printing_world "/etc/runtime/config.toml"
                        "/var/log/runtime.log" sample_config))
                (calls (getEnvInfo printing_world "/etc/runtime/config.toml"
                          "/var/log/runtime.log" sample_config)))
      as (_ & Hwritten & _).
    + vm_compute. reflexivity.
    + vm_compute. reflexivity.
    + vm_compute. reflexivity.
    + vm_compute. reflexivity.
    + rewrite (Hwritten _ eq_refl). vm_compute. reflexivity.
Defined.

(** C7.  When the proxy section narrows to [vc.CCProxyConfig],
    [getProxyInfo] returns the configured proxy type, the [unknown]
    placeholder as version and the URL of the narrowed section, without an
    error.  The function makes no outside call at all, so no version is
    probed; a successful [getEnvInfo] carries the same record. *)
Theorem proxy_info_fields (w : World) (config : oci_RuntimeConfig)
    (proxyConfig : vc_CCProxyConfig) :
  RuntimeConfig_ProxyConfig config = any_CCProxyConfig proxyConfig ->
  getProxyInfo w config
  = ({| ProxyInfo_Type := RuntimeConfig_ProxyType config;
        ProxyInfo_Version := unknown w;
        ProxyInfo_URL := CCProxyConfig_URL proxyConfig |}, None) /\
  forall configFile logfilePath env made,
    getEnvInfo w configFile logfilePath config = (env, None, made) ->
    EnvInfo_Proxy env
    = {| ProxyInfo_Type := RuntimeConfig_ProxyType config;
         ProxyInfo_Version := unknown w;
         ProxyInfo_URL := CCProxyConfig_URL proxyConfig |}.
Proof.
  intros Hp.
  assert (Hrun : getProxyInfo w config
                 = ({| ProxyInfo_Type := RuntimeConfig_ProxyType config;
                       ProxyInfo_Version := unknown w;
                       ProxyInfo_URL := CCProxyConfig_URL proxyConfig |}, None)).
  { unfold getProxyInfo. rewrite Hp. reflexivity. }
  split; [exact Hrun|].
  intros configFile logfilePath env made Henv.
  apply getEnvInfo_success in Henv
    as (hv & m1 & m3 & m5 & m6 & _ & _ & _ & Hproxy & _).
  congruence.
Qed.

Lemma proxy_info_fields_witness :
  getProxyInfo sample_world sample_config
  = ({| ProxyInfo_Type := "ccProxy";
        ProxyInfo_Version := "<<unknown>>";
        ProxyInfo_URL := "unix:///run/proxy.sock" |}, None).
Proof.
  apply (proxy_info_fields sample_world sample_config
           {| CCProxyConfig_URL := "unix:///run/proxy.sock" |}).
  reflexivity.
Defined.

(** C9.  [handleSettings] checks the metadata entries [configFile],
    [runtimeConfig] and [logfilePath] in that order before anything else.
    An entry that is absent or of another dynamic type than [string],
    [oci.RuntimeConfig], [string] makes it return the matching error; no
    outside call has been made by then, so [getEnvInfo] was not run and
    nothing was written. *)
Theorem handleSettings_validates_metadata (w : World) (context : cli_Context) :
  let metadata := App_Metadata (Context_App context) in
  ((forall s, metadata !! "configFile" <> Some (any_string s)) ->
   handleSettings w context
   = (Some (errors_New "cannot determine config file"), [])) /\
  (forall configFile,
     metadata !! "configFile" = Some (any_string configFile) ->
     (forall c, metadata !! "runtimeConfig" <> Some (any_RuntimeConfig c)) ->
     handleSettings w context
     = (Some (errors_New "cannot determine runtime config"), [])) /\
  (forall configFile runtimeConfig,
     metadata !! "configFile" = Some (any_string configFile) ->
     metadata !! "runtimeConfig" = Some (any_RuntimeConfig runtimeConfig) ->
     (forall s, metadata !! "logfilePath" <> Some (any_string s)) ->
     handleSettings w context
     = (Some (errors_New "cannot determine logfile config"), [])) /\
  (forall configFile runtimeConfig logfilePath,
     metadata !! "configFile" = Some (any_string configFile) ->
     metadata !! "runtimeConfig" = Some (any_RuntimeConfig runtimeConfig) ->
     metadata !! "logfilePath" = Some (any_string logfilePath) ->
     calls (getEnvInfo w configFile logfilePath runtimeConfig)
       `prefix_of` calls (handleSettings w context)) /\
  (forall configFile runtimeConfig logfilePath,
     head (calls (getEnvInfo w configFile logfilePath runtimeConfig))
     = Some (EvalSymlinks configFile)).
Proof.
  intros metadata. unfold handleSettings, index. fold metadata.
  split; [|split; [|split; [|split]]].
  - intros H.
    destruct (metadata !! "configFile") as [[]|]; cbn; try reflexivity.
    exfalso. by eapply H.
  - intros configFile -> H. cbn.
    destruct (metadata !! "runtimeConfig") as [[]|]; cbn; try reflexivity.
    exfalso. by eapply H.
  - intros configFile runtimeConfig -> -> H. cbn.
    destruct (metadata !! "logfilePath") as [[]|]; cbn; try reflexivity.
    exfalso. by eapply H.
  - intros configFile runtimeConfig logfilePath -> -> ->.
    apply bind_calls_prefix.
  - intros configFile runtimeConfig logfilePath.
    unfold getEnvInfo, getRuntimeInfo, filepath_EvalSymlinks.
    rewrite !calls_bind. reflexivity.
Qed.

Lemma handleSettings_validates_metadata_witness :
  handleSettings sample_world
    {| Context_App :=
         {| App_Metadata :=
              list_to_map
                [ ("configFile", any_string "/etc/runtime/config.toml");
                  ("runtimeConfig", any_other "*oci.RuntimeConfig");
                  ("logfilePath", any_string "/var/log/runtime.log") ] |} |}
  = (Some (errors_New "cannot determine runtime config"), []).
Proof.
  eapply (handleSettings_validates_metadata sample_world).
  - vm_compute. reflexivity.
  - intros c. vm_compute. discriminate.
Defined.

(** C10.  In every successfully returned [EnvInfo] the shim and agent
    versions are the same [unknown] placeholder as the proxy version, and
    [GlobalLogPath] is the log-file path that was passed in.  The log-file
    path is never resolved or checked: the error and the outside calls of
    [getEnvInfo] are the same for any two log-file paths. *)
Theorem placeholders_and_log_path (w : World) (configFile : string)
    (config : oci_RuntimeConfig) :
  (forall logfilePath env made,
     getEnvInfo w configFile logfilePath config = (env, None, made) ->
     ShimInfo_Version (EnvInfo_Shim env) = unknown w /\
     AgentInfo_Version (EnvInfo_Agent env) = unknown w /\
     ProxyInfo_Version (EnvInfo_Proxy env) = unknown w /\
     RuntimeConfigInfo_GlobalLogPath (RuntimeInfo_Config (EnvInfo_Runtime env))
     = logfilePath) /\
  (forall logfilePath logfilePath',
     err (getEnvInfo w configFile logfilePath config)
     = err (getEnvInfo w configFile logfilePath' config) /\
     calls (getEnvInfo w configFile logfilePath config)
     = calls (getEnvInfo w configFile logfilePath' config)).
Proof.
  split.
  - intros logfilePath env made Hrun.
    apply getEnvInfo_success in Hrun
      as (hv & m1 & m3 & m5 & m6 & Hrt & _ & _ & Hproxy & Hshim & Hagent & _).
    apply getRuntimeInfo_success in Hrt as (r0 & _ & -> & _).
    apply getProxyInfo_success in Hproxy as (pc & _ & ->).
    apply getShimInfo_success in Hshim as (sc & rs & _ & _ & -> & _).
    apply getAgentInfo_success in Hagent as (ac & ra & _ & _ & -> & _).
    cbn. auto.
  - intros logfilePath logfilePath'. split.
    + rewrite !getEnvInfo_err. reflexivity.
    + apply getEnvInfo_log_path.
Qed.

Lemma placeholders_and_log_path_witness :
  let env := val (getEnvInfo sample_world "/etc/runtime/config.toml" "" sample_config) in
  ShimInfo_Version (EnvInfo_Shim env) = "<<unknown>>" /\
  AgentInfo_Version (EnvInfo_Agent env) = "<<unknown>>" /\
  ProxyInfo_Version (EnvInfo_Proxy env) = "<<unknown>>" /\
  RuntimeConfigInfo_GlobalLogPath (RuntimeInfo_Config (EnvInfo_Runtime env)) = "".
Proof.
  destruct (placeholders_and_log_path sample_world "/etc/runtime/config.toml"
              sample_config) as [H _].
  apply (H "" _ (calls (getEnvInfo sample_world "/etc/runtime/config.toml" ""
                          sample_config))).
  vm_compute. reflexivity.
Defined.

(** ** Further properties of the functions *)

(** *** Auxiliary facts *)

Lemma first_error_None (steps : list error) :
  first_error steps = None <-> Forall (fun e => e = None) steps.
Proof.
  induction steps as [|[e|] steps IH]; cbn.
  - split; [constructor | reflexivity].
  - split; [discriminate | intros H; inversion H; discriminate].
  - rewrite IH. split; [by constructor | by inversion 1].
Qed.

Lemma narrowing_None (ok : bool) (subsystem : string) :
  narrowing ok subsystem = None <-> ok = true.
Proof. destruct ok; cbn; split; congruence. Qed.

(** Either an entry is missing or mistyped, and nothing happened, or all
    three are there. *)
Lemma handleSettings_inv (w : World) (context : cli_Context) :
  (exists text, handleSettings w context = (Some (errors_New text), [])) \/
  (exists configFile runtimeConfig logfilePath,
     index (App_Metadata (Context_App context)) "configFile" = any_string configFile /\
     index (App_Metadata (Context_App context)) "runtimeConfig"
     = any_RuntimeConfig runtimeConfig /\
     index (App_Metadata (Context_App context)) "logfilePath" = any_string logfilePath).
Proof.
  unfold handleSettings.
  destruct (index (App_Metadata (Context_App context)) "configFile") eqn:H1; cbn;
    try (left; eexists; reflexivity).
  destruct (index (App_Metadata (Context_App context)) "runtimeConfig") eqn:H2; cbn;
    try (left; eexists; reflexivity).
  destruct (index (App_Metadata (Context_App context)) "logfilePath") eqn:H3; cbn;
    try (left; eexists; reflexivity).
  right. eauto 10.
Qed.

Lemma getHostInfo_calls (w : World) :
  calls (getHostInfo w) `prefix_of` host_calls w.
Proof.
  unfold host_calls. unfold_run.
  destruct (on_getKernelVersion w) as [? [?|]]; cbn; [by eexists|].
  destruct (on_getDistroDetails w) as [[? ?] [?|]]; cbn; [by eexists|].
  destruct (on_getCPUDetails w) as [[? ?] [?|]]; cbn; by eexists.
Qed.

Lemma filter_nothing_rendered (made : list call) :
  nothing_rendered made -> filter (fun c => renders c = true) made = [].
Proof.
  unfold nothing_rendered.
  induction made as [|c made IH]; [reflexivity|].
  cbn [forallb]. intros [Hc Hm]%andb_true_iff.
  rewrite filter_cons. destruct (decide (renders c = true)) as [Hr|_].
  - rewrite Hr in Hc. discriminate.
  - auto.
Qed.

Lemma snapshot_error_calls (w : World) (context : cli_Context)
    (configFile logfilePath : string) (runtimeConfig : oci_RuntimeConfig)
    (e : errorValue) :
  index (App_Metadata (Context_App context)) "configFile" = any_string configFile ->
  index (App_Metadata (Context_App context)) "runtimeConfig"
  = any_RuntimeConfig runtimeConfig ->
  index (App_Metadata (Context_App context)) "logfilePath" = any_string logfilePath ->
  err (getEnvInfo w configFile logfilePath runtimeConfig) = Some e ->
  handleSettings w context
  = (Some e, calls (getEnvInfo w configFile logfilePath runtimeConfig)) /\
  nothing_rendered (calls (getEnvInfo w configFile logfilePath runtimeConfig)).
Proof.
  intros H1 H2 H3 He.
  split; [by apply handleSettings_failure | apply getEnvInfo_nothing_rendered].
Qed.

(** X1.  [getEnvInfo] returns without error exactly when the configuration
    is valid with resolvable paths and the kernel, distribution and CPU
    probes succeed: these ten conditions are all that can make it fail. *)
Theorem getEnvInfo_succeeds_iff (w : World) (configFile logfilePath : string)
    (config : oci_RuntimeConfig) :
  err (getEnvInfo w configFile logfilePath config) = None <->
  valid_with_resolvable_paths w configFile config /\ host_probes_succeed w.
Proof.
  rewrite getEnvInfo_err, first_error_None. unfold code_order.
  rewrite !Forall_cons, !narrowing_None.
  unfold valid_with_resolvable_paths, host_probes_succeed, resolvable,
    proxy_narrows, shim_narrows, agent_narrows.
  rewrite Forall_nil. tauto.
Qed.

(** X2.  A run of [getEnvInfo] without error has made exactly the eight
    outside calls of [all_calls], each once and in that order: the
    configuration file, the hypervisor details, the four host probes, the
    shim path and the pause-binary path. *)
Theorem successful_run_calls (w : World) (configFile logfilePath : string)
    (config : oci_RuntimeConfig) (env : EnvInfo) (made : list call) :
  getEnvInfo w configFile logfilePath config = (env, None, made) ->
  made = all_calls w configFile config.
Proof.
  intros Hrun.
  apply getEnvInfo_success in Hrun
    as (hv & m1 & m3 & m5 & m6 & Hrt & _ & Hhost & _ & Hshim & Hagent & _ & _ & _ & _ & ->).
  apply getRuntimeInfo_success in Hrt as (_ & _ & _ & ->).
  apply getHostInfo_success in Hhost as (_ & _ & _ & _ & ->).
  apply getShimInfo_success in Hshim as (sc & rs & Hsc & _ & _ & ->).
  apply getAgentInfo_success in Hagent as (ac & ra & Hac & _ & _ & ->).
  unfold all_calls, shimPath_of, agentBinPath_of. rewrite Hsc, Hac. reflexivity.
Qed.

Lemma successful_run_calls_witness :
  calls (getEnvInfo sample_world "/etc/runtime/config.toml" "/var/log/runtime.log"
           sample_config)
  = [ EvalSymlinks "/etc/runtime/config.toml"; GetHypervisorDetails sample_config;
      GetKernelVersion; GetDistroDetails; GetCPUDetails;
      HostIsClearContainersCapable "/proc/cpuinfo";
      EvalSymlinks "/usr/bin/shim"; EvalSymlinks "/usr/libexec/pause" ].
Proof.
  apply (successful_run_calls sample_world "/etc/runtime/config.toml"
           "/var/log/runtime.log" sample_config
           (val (getEnvInfo sample_world "/etc/runtime/config.toml"
                   "/var/log/runtime.log" sample_config))).
  vm_compute. reflexivity.
Defined.

(** X3.  What a successful snapshot reports besides the claims above: the
    runtime version triple is the three build constants; the host's kernel,
    distribution and CPU fields are the answers of the three probes; the
    shim and agent types are the configured types; and the hypervisor, image
    and kernel entries pair the configured path with the path of the same
    name in the answer of [getHypervisorDetails]. *)
Theorem snapshot_reports_answers (w : World) (configFile logfilePath : string)
    (config : oci_RuntimeConfig) (env : EnvInfo) (made : list call) :
  getEnvInfo w configFile logfilePath config = (env, None, made) ->
  RuntimeInfo_Version (EnvInfo_Runtime env)
  = {| RuntimeVersionInfo_Semver := version w;
       RuntimeVersionInfo_Commit := commit w;
       RuntimeVersionInfo_OCI := specs_Version w |} /\
  on_getKernelVersion w = (HostInfo_Kernel (EnvInfo_Host env), None) /\
  on_getDistroDetails w
  = (DistroInfo_Name (HostInfo_Distro (EnvInfo_Host env)),
     DistroInfo_Version (HostInfo_Distro (EnvInfo_Host env)), None) /\
  on_getCPUDetails w
  = (CPUInfo_Vendor (HostInfo_CPU (EnvInfo_Host env)),
     CPUInfo_Model (HostInfo_CPU (EnvInfo_Host env)), None) /\
  ShimInfo_Type (EnvInfo_Shim env) = RuntimeConfig_ShimType config /\
  AgentInfo_Type (EnvInfo_Agent env) = RuntimeConfig_AgentType config /\
  let section := RuntimeConfig_HypervisorConfig config in
  let resolvedHypervisor := fst (on_getHypervisorDetails w config) in
  EnvInfo_Hypervisor env
  = {| PathInfo_Path := HypervisorConfig_HypervisorPath section;
       PathInfo_Resolved := HypervisorConfig_HypervisorPath resolvedHypervisor |} /\
  EnvInfo_Image env
  = {| PathInfo_Path := HypervisorConfig_ImagePath section;
       PathInfo_Resolved := HypervisorConfig_ImagePath resolvedHypervisor |} /\
  EnvInfo_Kernel env
  = {| PathInfo_Path := HypervisorConfig_KernelPath section;
       PathInfo_Resolved := HypervisorConfig_KernelPath resolvedHypervisor |}.
Proof.
  intros Hrun.
  apply getEnvInfo_success in Hrun
    as (hv & m1 & m3 & m5 & m6 & Hrt & Hhv & Hhost & _ & Hshim & Hagent & _
        & Hh & Hi & Hk & _).
  apply getRuntimeInfo_success in Hrt as (r0 & _ & -> & _).
  apply getHostInfo_success in Hhost as (Hkv & Hdd & Hcd & _ & _).
  apply getShimInfo_success in Hshim as (sc & rs & _ & _ & -> & _).
  apply getAgentInfo_success in Hagent as (ac & ra & _ & _ & -> & _).
  rewrite Hhv, Hh, Hi, Hk. cbn. auto 10.
Qed.

Lemma snapshot_reports_answers_witness :
  let env := val (getEnvInfo sample_world "/etc/runtime/config.toml"
                    "/var/log/runtime.log" sample_config) in
  RuntimeInfo_Version (EnvInfo_Runtime env)
  = {| RuntimeVersionInfo_Semver := "3.0.0";
       RuntimeVersionInfo_Commit := "1a2b3c4";
       RuntimeVersionInfo_OCI := "1.0.0-rc5" |}.
Proof.
  eapply (snapshot_reports_answers sample_world "/etc/runtime/config.toml"
            "/var/log/runtime.log" sample_config).
  vm_compute. reflexivity.
Defined.

Lemma getEnvInfo_succeeds_iff_witness :
  err (getEnvInfo sample_world "/etc/runtime/config.toml" "/var/log/runtime.log"
         sample_config) = None.
Proof.
  apply (getEnvInfo_succeeds_iff sample_world "/etc/runtime/config.toml"
           "/var/log/runtime.log" sample_config).
  repeat split; vm_compute; reflexivity.
Defined.

(** X4.  No sub-report is ever partial: whenever [getRuntimeInfo],
    [getHostInfo], [getProxyInfo], [getShimInfo] or [getAgentInfo] return an
    error, the record returned with it is the zero value of its type. *)
Theorem sub_reports_zero_on_error (w : World) (configFile logFile : string)
    (config : oci_RuntimeConfig) :
  (err (getRuntimeInfo w configFile logFile config) <> None ->
   val (getRuntimeInfo w configFile logFile config) = zero) /\
  (err (getHostInfo w) <> None -> val (getHostInfo w) = zero) /\
  (snd (getProxyInfo w config) <> None -> fst (getProxyInfo w config) = zero) /\
  (err (getShimInfo w config) <> None -> val (getShimInfo w config) = zero) /\
  (err (getAgentInfo w config) <> None -> val (getAgentInfo w config) = zero).
Proof.
  split; [|split; [|split; [|split]]].
  - unfold_run.
    destruct (on_EvalSymlinks w configFile) as [? [?|]]; cbn; congruence.
  - unfold_run.
    destruct (on_getKernelVersion w) as [? [?|]]; cbn; [reflexivity|].
    destruct (on_getDistroDetails w) as [[? ?] [?|]]; cbn; [reflexivity|].
    destruct (on_getCPUDetails w) as [[? ?] [?|]]; cbn; [reflexivity|].
    congruence.
  - unfold getProxyInfo.
    destruct (RuntimeConfig_ProxyConfig config); cbn; congruence.
  - unfold_run.
    destruct (RuntimeConfig_ShimConfig config); cbn; try reflexivity.
    destruct (on_EvalSymlinks w _) as [? [?|]]; cbn; congruence.
  - unfold_run.
    destruct (RuntimeConfig_AgentConfig config); cbn; try reflexivity.
    destruct (on_EvalSymlinks w _) as [? [?|]]; cbn; congruence.
Qed.

Lemma sub_reports_zero_on_error_witness :
  val (getShimInfo sample_world absent_shim_config) = zero.
Proof.
  destruct (sub_reports_zero_on_error sample_world "/etc/runtime/config.toml"
              "/var/log/runtime.log" absent_shim_config) as (_ & _ & _ & H & _).
  apply H. vm_compute. discriminate.
Defined.

(** X5.  [getHostInfo] asks the kernel version, the distribution, the CPU
    and then the capability probe, always on [procCPUInfo], and stops at the
    first of the first three that fails, returning that probe's error: a
    failing kernel probe means no other probe is asked, and the capability
    probe is asked exactly in the runs that return without error.  The calls
    made are exactly those of the probes up to and including the failing
    one, and the [HostInfo] returned with an error is the zero value; the
    result is given in full for each of the four ways a run can go. *)
Theorem host_probes_fail_fast (w : World) :
  err (getHostInfo w)
  = first_error [ snd (on_getKernelVersion w);
                  snd (on_getDistroDetails w);
                  snd (on_getCPUDetails w) ] /\
  calls (getHostInfo w) `prefix_of` host_calls w /\
  (forall kernel e,
     on_getKernelVersion w = (kernel, Some e) ->
     getHostInfo w = (zero, Some e, [GetKernelVersion])) /\
  (err (getHostInfo w) = None <-> calls (getHostInfo w) = host_calls w) /\
  (forall cpuinfo,
     HostIsClearContainersCapable cpuinfo ∈ calls (getHostInfo w) ->
     cpuinfo = procCPUInfo w /\ err (getHostInfo w) = None) /\
  calls (getHostInfo w) = calls_until (host_steps w) /\
  (err (getHostInfo w) <> None -> val (getHostInfo w) = zero) /\
  (forall kernel name version e,
     on_getKernelVersion w = (kernel, None) ->
     on_getDistroDetails w = (name, version, Some e) ->
     getHostInfo w = (zero, Some e, [GetKernelVersion; GetDistroDetails])) /\
  (forall kernel name version vendor model e,
     on_getKernelVersion w = (kernel, None) ->
     on_getDistroDetails w = (name, version, None) ->
     on_getCPUDetails w = (vendor, model, Some e) ->
     getHostInfo w
     = (zero, Some e, [GetKernelVersion; GetDistroDetails; GetCPUDetails])) /\
  (forall kernel name version vendor model,
     on_getKernelVersion w = (kernel, None) ->
     on_getDistroDetails w = (name, version, None) ->
     on_getCPUDetails w = (vendor, model, None) ->
     getHostInfo w
     = ({| HostInfo_Kernel := kernel;
           HostInfo_Distro :=
             {| DistroInfo_Name := name; DistroInfo_Version := version |};
           HostInfo_CPU := {| CPUInfo_Vendor := vendor; CPUInfo_Model := model |};
           HostInfo_CCCapable :=
             is_nil (on_hostIsClearContainersCapable w (procCPUInfo w)) |},
        None, host_calls w)).
Proof.
  split; [apply getHostInfo_err|].
  split; [apply getHostInfo_calls|].
  split; [|split; [|split; [|split; [|split; [|split; [|split]]]]]];
    [| | | apply getHostInfo_calls_exact | | | |].
  - intros kernel e Hk. unfold_run. rewrite Hk. reflexivity.
  - unfold host_calls. unfold_run.
    destruct (on_getKernelVersion w) as [? [?|]]; cbn; [split; discriminate|].
    destruct (on_getDistroDetails w) as [[? ?] [?|]]; cbn; [split; discriminate|].
    destruct (on_getCPUDetails w) as [[? ?] [?|]]; cbn; [split; discriminate|].
    split; reflexivity.
  - intros cpuinfo. unfold_run.
    destruct (on_getKernelVersion w) as [? [?|]]; cbn.
    { rewrite list_elem_of_singleton. discriminate. }
    destruct (on_getDistroDetails w) as [[? ?] [?|]]; cbn.
    { rewrite !elem_of_cons, elem_of_nil. intros [H|[H|[]]]; discriminate. }
    destruct (on_getCPUDetails w) as [[? ?] [?|]]; cbn.
    { rewrite !elem_of_cons, elem_of_nil. intros [H|[H|[H|[]]]]; discriminate. }
    rewrite !elem_of_cons, elem_of_nil.
    intros [H|[H|[H|[H|[]]]]]; try discriminate.
    injection H as ->. auto.
  - unfold_run.
    destruct (on_getKernelVersion w) as [? [?|]]; cbn; [reflexivity|].
    destruct (on_getDistroDetails w) as [[? ?] [?|]]; cbn; [reflexivity|].
    destruct (on_getCPUDetails w) as [[? ?] [?|]]; cbn; [reflexivity|].
    congruence.
  - intros kernel name version e Hk Hd. unfold_run. rewrite Hk, Hd. reflexivity.
  - intros kernel name version vendor model e Hk Hd Hc. unfold_run.
    rewrite Hk, Hd, Hc. reflexivity.
  - intros kernel name version vendor model Hk Hd Hc. unfold host_calls.
    unfold_run. rewrite Hk, Hd, Hc. cbn.
    destruct (on_hostIsClearContainersCapable w (procCPUInfo w)); reflexivity.
Qed.

Lemma host_probes_fail_fast_witness :
  getHostInfo unreadable_kernel_world = (zero, Some no_proc_version, [GetKernelVersion]).
Proof.
  destruct (host_probes_fail_fast unreadable_kernel_world) as (_ & _ & H & _).
  apply (H ""). reflexivity.
Defined.

(** X6.  A shim or pause-binary path that cannot be resolved makes
    [getShimInfo], respectively [getAgentInfo], return the resolution error
    unchanged after that single call; through [getEnvInfo] the shim path's
    error is the one reported when every earlier step succeeds, and the
    pause binary is then never looked at. *)
Theorem binary_path_errors_propagate (w : World) (config : oci_RuntimeConfig) :
  (forall shimConfig resolved e,
     RuntimeConfig_ShimConfig config = any_CCShimConfig shimConfig ->
     on_EvalSymlinks w (CCShimConfig_Path shimConfig) = (resolved, Some e) ->
     getShimInfo w config
     = (zero, Some e, [EvalSymlinks (CCShimConfig_Path shimConfig)])) /\
  (forall agentConfig resolved e,
     RuntimeConfig_AgentConfig config = any_HyperConfig agentConfig ->
     on_EvalSymlinks w (HyperConfig_PauseBinPath agentConfig) = (resolved, Some e) ->
     getAgentInfo w config
     = (zero, Some e, [EvalSymlinks (HyperConfig_PauseBinPath agentConfig)])) /\
  (forall configFile logfilePath shimConfig resolved e,
     resolvable w configFile ->
     snd (on_getHypervisorDetails w config) = None ->
     host_probes_succeed w ->
     proxy_narrows config = true ->
     RuntimeConfig_ShimConfig config = any_CCShimConfig shimConfig ->
     on_EvalSymlinks w (CCShimConfig_Path shimConfig) = (resolved, Some e) ->
     result (getEnvInfo w configFile logfilePath config) = (zero, Some e) /\
     calls (getEnvInfo w configFile logfilePath config)
     = [ EvalSymlinks configFile; GetHypervisorDetails config;
         GetKernelVersion; GetDistroDetails; GetCPUDetails;
         HostIsClearContainersCapable (procCPUInfo w);
         EvalSymlinks (CCShimConfig_Path shimConfig) ]).
Proof.
  split; [|split].
  - intros shimConfig resolved e Hsc Hr. unfold_run. rewrite Hsc. cbn.
    rewrite Hr. reflexivity.
  - intros agentConfig resolved e Hac Hr. unfold_run. rewrite Hac. cbn.
    rewrite Hr. reflexivity.
  - intros configFile logfilePath shimConfig resolved e Hcf Hhv (Hk & Hd & Hc)
      Hp Hsc Hr.
    unfold resolvable, proxy_narrows in *. unfold_run.
    destruct (on_EvalSymlinks w configFile) as [? [?|]]; [discriminate|].
    destruct (on_getHypervisorDetails w config) as [? [?|]]; [discriminate|].
    destruct (on_getKernelVersion w) as [? [?|]]; [discriminate|].
    destruct (on_getDistroDetails w) as [[? ?] [?|]]; [discriminate|].
    destruct (on_getCPUDetails w) as [[? ?] [?|]]; [discriminate|].
    cbn.
    destruct (RuntimeConfig_ProxyConfig config); try discriminate.
    rewrite Hsc. cbn. rewrite Hr. cbn. split; reflexivity.
Qed.

Lemma binary_path_errors_propagate_witness :
  result (getEnvInfo sample_world "/etc/runtime/config.toml" "/var/log/runtime.log"
            absent_shim_config)
  = (zero, Some (os_PathError "lstat" "/usr/bin/absent-shim" "no such file or directory")).
Proof.
  destruct (binary_path_errors_propagate sample_world absent_shim_config)
    as (_ & _ & H).
  apply (H "/etc/runtime/config.toml" "/var/log/runtime.log"
           {| CCShimConfig_Path := "/usr/bin/absent-shim" |} "").
  - vm_compute. reflexivity.
  - vm_compute. reflexivity.
  - repeat split; vm_compute; reflexivity.
  - reflexivity.
  - reflexivity.
  - vm_compute. reflexivity.
Defined.

(** X7.  Whatever its input, [getEnvInfo] never encodes and never writes,
    and the only paths it resolves itself are the configuration file, the
    shim path and the pause-binary path: the log-file path and the
    hypervisor, image and kernel paths are not resolved by it. *)
Theorem getEnvInfo_only_asks (w : World) (configFile logfilePath : string)
    (config : oci_RuntimeConfig) :
  nothing_rendered (calls (getEnvInfo w configFile logfilePath config)) /\
  (forall file,
     written file (calls (getEnvInfo w configFile logfilePath config)) = []) /\
  (forall path,
     EvalSymlinks path ∈ calls (getEnvInfo w configFile logfilePath config) ->
     path ∈ [configFile; shimPath_of config; agentBinPath_of config]) /\
  length (calls (getEnvInfo w configFile logfilePath config)) <= 8.
Proof.
  pose proof (getEnvInfo_calls w configFile logfilePath config) as Hpre.
  split; [apply getEnvInfo_nothing_rendered|].
  split; [intros file; apply nothing_rendered_written, getEnvInfo_nothing_rendered|].
  split.
  - intros path Hin.
    destruct Hpre as [rest Hall].
    assert (Hin' : EvalSymlinks path ∈ all_calls w configFile config).
    { rewrite Hall. apply elem_of_app. by left. }
    unfold all_calls in Hin'.
    rewrite !elem_of_cons, elem_of_nil in Hin'.
    rewrite !elem_of_cons, elem_of_nil.
    destruct Hin' as [H|[H|[H|[H|[H|[H|[H|[H|[]]]]]]]]]; try discriminate;
      injection H as ->; auto.
  - apply prefix_length in Hpre. exact Hpre.
Qed.

Lemma getEnvInfo_only_asks_witness :
  "/usr/bin/shim"
    ∈ ["/etc/runtime/config.toml"; shimPath_of sample_config;
       agentBinPath_of sample_config].
Proof.
  destruct (getEnvInfo_only_asks sample_world "/etc/runtime/config.toml"
              "/var/log/runtime.log" sample_config) as (_ & _ & H & _).
  apply H. vm_compute. do 6 apply list_elem_of_further. apply list_elem_of_here.
Defined.

(** X8.  [showSettings] returns an encoder error without writing anything.
    When the encoder succeeds it writes the encoder's text, unchanged and in
    one piece, to the file it was given and to no other file, and returns
    whatever the write returned. *)
Theorem showSettings_outcome (w : World) (ccEnv : EnvInfo) (file : os_File) :
  (forall text e,
     on_Encode w ccEnv = (text, Some e) ->
     result (showSettings w ccEnv file) = Some e /\
     forall file', written file' (calls (showSettings w ccEnv file)) = []) /\
  (forall text,
     on_Encode w ccEnv = (text, None) ->
     result (showSettings w ccEnv file) = on_Fprintf w file text /\
     written file (calls (showSettings w ccEnv file)) = [text] /\
     forall file',
       file' <> file -> written file' (calls (showSettings w ccEnv file)) = []).
Proof.
  split.
  - intros text e Henc.
    rewrite (showSettings_encoder_error w ccEnv file text e Henc).
    split; [reflexivity | intros file'; reflexivity].
  - intros text Henc.
    rewrite (showSettings_writes_encoding w ccEnv file text Henc).
    split; [reflexivity|]. split.
    + destruct file; reflexivity.
    + intros file' Hne. destruct file, file'; cbn; congruence.
Qed.

Lemma showSettings_outcome_witness :
  result (showSettings closed_stdout_world zero os_Stdout) = Some closed_pipe /\
  written os_Stdout (calls (showSettings closed_stdout_world zero os_Stdout)) = ["[Meta]"] /\
  forall file',
    file' <> os_Stdout ->
    written file' (calls (showSettings closed_stdout_world zero os_Stdout)) = [].
Proof.
  destruct (showSettings_outcome closed_stdout_world zero os_Stdout) as [_ H].
  apply (H "[Meta]"). reflexivity.
Defined.

(** X9.  With the three metadata entries in place, a successful snapshot
    and a successful encoding, [handleSettings] hands exactly the record
    [getEnvInfo] returned to the encoder, writes the encoder's text once to
    standard output after all the questions were asked, and returns what
    the write returned. *)
Theorem settings_shown (w : World) (context : cli_Context)
    (configFile logfilePath : string) (runtimeConfig : oci_RuntimeConfig)
    (env : EnvInfo) (made : list call) (text : string) :
  index (App_Metadata (Context_App context)) "configFile" = any_string configFile ->
  index (App_Metadata (Context_App context)) "runtimeConfig"
  = any_RuntimeConfig runtimeConfig ->
  index (App_Metadata (Context_App context)) "logfilePath" = any_string logfilePath ->
  getEnvInfo w configFile logfilePath runtimeConfig = (env, None, made) ->
  on_Encode w env = (text, None) ->
  handleSettings w context
  = (on_Fprintf w os_Stdout text,
     (made ++ [Encode env; Fprintf os_Stdout text])%list) /\
  written os_Stdout (calls (handleSettings w context)) = [text] /\
  written os_Stderr (calls (handleSettings w context)) = [].
Proof.
  intros H1 H2 H3 Hrun Henc.
  assert (Hh : handleSettings w context
               = (on_Fprintf w os_Stdout text,
                  (made ++ [Encode env; Fprintf os_Stdout text])%list)).
  { rewrite (handleSettings_valid w context configFile logfilePath runtimeConfig)
      by assumption.
    unfold bind. rewrite Hrun.
    rewrite (showSettings_writes_encoding w env os_Stdout text Henc). reflexivity. }
  split; [exact Hh|].
  assert (Hnone : nothing_rendered made).
  { pose proof (getEnvInfo_nothing_rendered w configFile logfilePath runtimeConfig)
      as Hn. by rewrite Hrun in Hn. }
  rewrite Hh. unfold calls. cbn [snd].
  rewrite !written_app, !(nothing_rendered_written _ made Hnone). split; reflexivity.
Qed.

Lemma settings_shown_witness :
  handleSettings closed_stdout_world sample_context
  = (Some closed_pipe,
     (all_calls closed_stdout_world "/etc/runtime/config.toml" sample_config
      ++ [ Encode (val (getEnvInfo closed_stdout_world "/etc/runtime/config.toml"
                          "/var/log/runtime.log" sample_config));
           Fprintf os_Stdout "[Meta]" ])%list).
Proof.
  apply (settings_shown closed_stdout_world sample_context
           "/etc/runtime/config.toml" "/var/log/runtime.log" sample_config).
  - vm_compute. reflexivity.
  - vm_compute. reflexivity.
  - vm_compute. reflexivity.
  - vm_compute. reflexivity.
  - reflexivity.
Defined.

(** X10.  When the encoder refuses the record of a successful snapshot,
    [handleSettings] returns the encoder's error and nothing is written to
    any file. *)
Theorem encoder_error_returned (w : World) (context : cli_Context)
    (configFile logfilePath : string) (runtimeConfig : oci_RuntimeConfig)
    (env : EnvInfo) (made : list call) (text : string) (e : errorValue) :
  index (App_Metadata (Context_App context)) "configFile" = any_string configFile ->
  index (App_Metadata (Context_App context)) "runtimeConfig"
  = any_RuntimeConfig runtimeConfig ->
  index (App_Metadata (Context_App context)) "logfilePath" = any_string logfilePath ->
  getEnvInfo w configFile logfilePath runtimeConfig = (env, None, made) ->
  on_Encode w env = (text, Some e) ->
  handleSettings w context = (Some e, (made ++ [Encode env])%list) /\
  forall file, written file (calls (handleSettings w context)) = [].
Proof.
  intros H1 H2 H3 Hrun Henc.
  assert (Hh : handleSettings w context = (Some e, (made ++ [Encode env])%list)).
  { rewrite (handleSettings_valid w context configFile logfilePath runtimeConfig)
      by assumption.
    unfold bind. rewrite Hrun.
    rewrite (showSettings_encoder_error w env os_Stdout text e Henc). reflexivity. }
  split; [exact Hh|].
  intros file.
  assert (Hnone : nothing_rendered made).
  { pose proof (getEnvInfo_nothing_rendered w configFile logfilePath runtimeConfig)
      as Hn. by rewrite Hrun in Hn. }
  rewrite Hh. unfold calls. cbn [snd].
  rewrite written_app, (nothing_rendered_written _ made Hnone). reflexivity.
Qed.

Lemma encoder_error_returned_witness :
  result (handleSettings broken_encoder_world sample_context) = Some encoder_refuses /\
  written os_Stdout (calls (handleSettings broken_encoder_world sample_context)) = [].
Proof.
  destruct (encoder_error_returned broken_encoder_world sample_context
              "/etc/runtime/config.toml" "/var/log/runtime.log" sample_config
              (val (getEnvInfo broken_encoder_world "/etc/runtime/config.toml"
                      "/var/log/runtime.log" sample_config))
              (calls (getEnvInfo broken_encoder_world "/etc/runtime/config.toml"
                        "/var/log/runtime.log" sample_config))
              "" encoder_refuses) as [Hh Hw].
  - vm_compute. reflexivity.
  - vm_compute. reflexivity.
  - vm_compute. reflexivity.
  - vm_compute. reflexivity.
  - reflexivity.
  - split; [by rewrite Hh | apply Hw].
Defined.

(** X11.  Any error of [getEnvInfo], whichever step it comes from, is
    returned unchanged by [handleSettings]; the run ends with the calls of
    [getEnvInfo], so nothing is encoded and nothing is written. *)
Theorem snapshot_error_returned (w : World) (context : cli_Context)
    (configFile logfilePath : string) (runtimeConfig : oci_RuntimeConfig)
    (e : errorValue) :
  index (App_Metadata (Context_App context)) "configFile" = any_string configFile ->
  index (App_Metadata (Context_App context)) "runtimeConfig"
  = any_RuntimeConfig runtimeConfig ->
  index (App_Metadata (Context_App context)) "logfilePath" = any_string logfilePath ->
  err (getEnvInfo w configFile logfilePath runtimeConfig) = Some e ->
  handleSettings w context
  = (Some e, calls (getEnvInfo w configFile logfilePath runtimeConfig)) /\
  nothing_rendered (calls (handleSettings w context)) /\
  forall file, written file (calls (handleSettings w context)) = [].
Proof.
  intros H1 H2 H3 He.
  rewrite (handleSettings_failure w context configFile logfilePath runtimeConfig e)
    by assumption.
  split; [reflexivity|].
  split; [apply getEnvInfo_nothing_rendered|].
  intros file. apply nothing_rendered_written, getEnvInfo_nothing_rendered.
Qed.

Lemma snapshot_error_returned_witness :
  result (handleSettings sample_world absent_shim_context)
  = Some (os_PathError "lstat" "/usr/bin/absent-shim" "no such file or directory") /\
  written os_Stdout (calls (handleSettings sample_world absent_shim_context)) = [].
Proof.
  destruct (snapshot_error_returned sample_world absent_shim_context
              "/etc/runtime/config.toml" "/var/log/runtime.log" absent_shim_config
              (os_PathError "lstat" "/usr/bin/absent-shim" "no such file or directory"))
    as (Hh & _ & Hw).
  - vm_compute. reflexivity.
  - vm_compute. reflexivity.
  - vm_compute. reflexivity.
  - vm_compute. reflexivity.
  - split; [by rewrite Hh | apply Hw].
Defined.

(** X12.  In every run, whatever the metadata and the host,
    [handleSettings] writes nothing to standard error, writes at most one
    text to standard output, and makes at most two rendering calls (one
    encoding, one write). *)
Theorem handleSettings_writes_at_most_once (w : World) (context : cli_Context) :
  written os_Stderr (calls (handleSettings w context)) = [] /\
  length (written os_Stdout (calls (handleSettings w context))) <= 1 /\
  length (filter (fun c => renders c = true) (calls (handleSettings w context))) <= 2.
Proof.
  destruct (handleSettings_inv w context)
    as [[text ->] | (configFile & runtimeConfig & logfilePath & H1 & H2 & H3)].
  { cbn. repeat split; lia. }
  destruct (getEnvInfo w configFile logfilePath runtimeConfig)
    as [[env [e|]] made] eqn:Hrun.
  - destruct (snapshot_error_calls w context configFile logfilePath runtimeConfig e)
      as (-> & Hn); try assumption.
    { unfold err, result. by rewrite Hrun. }
    rewrite Hrun. unfold calls. cbn [snd].
    assert (Hnone : nothing_rendered made).
    { pose proof (getEnvInfo_nothing_rendered w configFile logfilePath runtimeConfig)
        as Hm. by rewrite Hrun in Hm. }
    rewrite !(nothing_rendered_written _ made Hnone).
    rewrite (filter_nothing_rendered made Hnone). cbn. repeat split; lia.
  - assert (Hnone : nothing_rendered made).
    { pose proof (getEnvInfo_nothing_rendered w configFile logfilePath runtimeConfig)
        as Hm. by rewrite Hrun in Hm. }
    rewrite (handleSettings_valid w context configFile logfilePath runtimeConfig)
      by assumption.
    unfold bind. rewrite Hrun.
    destruct (on_Encode w env) as [text [e|]] eqn:Henc.
    + rewrite (showSettings_encoder_error w env os_Stdout text e Henc).
      unfold calls. cbn [snd].
      rewrite !written_app, !(nothing_rendered_written _ made Hnone).
      rewrite filter_app, (filter_nothing_rendered made Hnone).
      split; [reflexivity|]. split; [cbn; lia|].
      etransitivity; [apply length_filter | cbn; lia].
    + rewrite (showSettings_writes_encoding w env os_Stdout text Henc).
      unfold calls. cbn [snd].
      rewrite !written_app, !(nothing_rendered_written _ made Hnone).
      rewrite filter_app, (filter_nothing_rendered made Hnone).
      split; [reflexivity|]. split; [cbn; lia|].
      etransitivity; [apply length_filter | cbn; lia].
Qed.

(** X13.  The action of the [cc-env] command returns nil only after the
    whole work was done: the three metadata entries were there, [getEnvInfo]
    returned a record without error, the encoder accepted that record, and
    its text is what standard output received, in a write that reported no
    error. *)
Theorem command_success_means_shown (w : World) (context : cli_Context) :
  result (Command_Action ccEnvCommand w context) = None ->
  exists configFile runtimeConfig logfilePath env made text,
    index (App_Metadata (Context_App context)) "configFile" = any_string configFile /\
    index (App_Metadata (Context_App context)) "runtimeConfig"
    = any_RuntimeConfig runtimeConfig /\
    index (App_Metadata (Context_App context)) "logfilePath" = any_string logfilePath /\
    getEnvInfo w configFile logfilePath runtimeConfig = (env, None, made) /\
    on_Encode w env = (text, None) /\
    on_Fprintf w os_Stdout text = None /\
    calls (Command_Action ccEnvCommand w context)
    = (made ++ [Encode env; Fprintf os_Stdout text])%list /\
    written os_Stdout (calls (Command_Action ccEnvCommand w context)) = [text].
Proof.
  cbn [Command_Action ccEnvCommand].
  destruct (handleSettings_inv w context)
    as [[text ->] | (configFile & runtimeConfig & logfilePath & H1 & H2 & H3)];
    [discriminate|].
  rewrite (handleSettings_valid w context configFile logfilePath runtimeConfig)
    by assumption.
  pose proof (getEnvInfo_nothing_rendered w configFile logfilePath runtimeConfig)
    as Hnone.
  unfold bind.
  destruct (getEnvInfo w configFile logfilePath runtimeConfig)
    as [[env [e|]] made] eqn:Hrun; [discriminate|].
  unfold calls in Hnone. cbn [snd] in Hnone.
  destruct (on_Encode w env) as [text [e|]] eqn:Henc.
  - rewrite (showSettings_encoder_error w env os_Stdout text e Henc). discriminate.
  - rewrite (showSettings_writes_encoding w env os_Stdout text Henc).
    unfold result, calls. cbn [fst snd]. intros Hwrite.
    exists configFile, runtimeConfig, logfilePath, env, made, text.
    repeat (split; [assumption || reflexivity|]).
    rewrite written_app, (nothing_rendered_written _ made Hnone). reflexivity.
Qed.

Lemma command_success_means_shown_witness :
  exists configFile runtimeConfig logfilePath env made text,
    index (App_Metadata (Context_App sample_context)) "configFile"
    = any_string configFile /\
    index (App_Metadata (Context_App sample_context)) "runtimeConfig"
    = any_RuntimeConfig runtimeConfig /\
    index (App_Metadata (Context_App sample_context)) "logfilePath"
    = any_string logfilePath /\
    getEnvInfo sample_world configFile logfilePath runtimeConfig = (env, None, made) /\
    on_Encode sample_world env = (text, None) /\
    on_Fprintf sample_world os_Stdout text = None /\
    calls (Command_Action ccEnvCommand sample_world sample_context)
    = (made ++ [Encode env; Fprintf os_Stdout text])%list /\
    written os_Stdout (calls (Command_Action ccEnvCommand sample_world sample_context))
    = [text].
Proof.
  apply (command_success_means_shown sample_world sample_context).
  vm_compute. reflexivity.
Defined.

(** X14.  [handleSettings] reads the metadata under the keys [configFile],
    [runtimeConfig] and [logfilePath] only: adding, replacing or removing an
    entry under any other key changes neither its result nor its calls. *)
Theorem other_metadata_ignored (w : World) (context : cli_Context)
    (key : string) (value : any) :
  key ∉ metadata_keys ->
  handleSettings w
    (with_metadata context (<[key := value]> (App_Metadata (Context_App context))))
  = handleSettings w context /\
  handleSettings w
    (with_metadata context (delete key (App_Metadata (Context_App context))))
  = handleSettings w context.
Proof.
  unfold metadata_keys. rewrite !not_elem_of_cons. intros (Hc & Hr & Hl & _).
  unfold handleSettings, index, with_metadata. cbn [Context_App App_Metadata].
  rewrite !lookup_insert_ne, !lookup_delete_ne by congruence.
  split; reflexivity.
Qed.

Lemma other_metadata_ignored_witness :
  handleSettings sample_world
    (with_metadata sample_context
       (<["version" := any_string "3.0.0"]> (App_Metadata (Context_App sample_context))))
  = handleSettings sample_world sample_context.
Proof.
  apply (other_metadata_ignored sample_world sample_context "version"
           (any_string "3.0.0")).
  unfold metadata_keys. rewrite !not_elem_of_cons.
  repeat split; try discriminate. apply not_elem_of_nil.
Defined.
